(** * AssistGen REST gateway: the route handlers of [llm_backend/main.py]

    A shallow embedding of the FastAPI handlers [chat_endpoint],
    [reason_endpoint], [search_endpoint], [upload_file] and
    [rag_chat_endpoint], followed by the properties of the specification
    that concern them.

    Conventions of the embedding.
    - A Python [str] is a [string], one [ascii] per character; [bytes] is a
      [list byte]; a [dict] with string keys is a [gmap string _] (the
      properties below never depend on the insertion order of a dict).
    - The collaborators imported from [app.services] and [app.core]
      (factory, services, logger) and the operating system are not part of
      [main.py]: their behaviour is read from an environment [Env], which
      says for every call whether it raises and what it returns.
    - A handler is a function of the environment and of a [state] (the files
      under the upload directory and the trace of the external calls made so
      far) to a [completion] and the state it leaves.
    - Exceptions are the instances of [Exception], which is what
      [except Exception] catches; pathlib is the POSIX flavour. *)

From stdpp Require Import gmap strings list fin_maps pretty.
From Stdlib Require Import ZArith Lia Ascii.
From Stdlib.Strings Require Import Byte.

Open Scope string_scope.
Open Scope Z_scope.

(** ** Python values and exceptions *)

(** The values that occur in the dictionaries of [main.py]: [None], [int]
    and [str]. *)
Inductive value : Type :=
  | VNone
  | VInt (n : Z)
  | VStr (s : string).

Abbreviation dict := (gmap string value).

(** An element of [messages : List[Dict[str, str]]]. *)
Abbreviation message := (gmap string string).

(** An exception instance.  [PyExc cls msg] is an instance of the class
    named [cls] whose [str()] is [msg]; [HTTPException] is FastAPI's. *)
Inductive exn : Type :=
  | PyExc (cls : string) (msg : string)
  | HTTPException (status_code : Z) (detail : string).

(** [str(e)].  Starlette's [HTTPException.__str__] is
    [f"{status_code}: {detail}"]. *)
Definition str_exn (e : exn) : string :=
  match e with
  | PyExc _ msg => msg
  | HTTPException sc d => pretty sc +:+ ": " +:+ d
  end.

(** ** Strings *)

(** [s[:n]] *)
Definition str_prefix (n : nat) (s : string) : string := String.substring 0 n s.

(** [s.replace(a, b)] for one-character [a] and [b]. *)
Fixpoint str_replace (a b : ascii) (s : string) : string :=
  match s with
  | EmptyString => EmptyString
  | String c s' =>
      String (if Ascii.eqb c a then b else c) (str_replace a b s')
  end.

(** [s.split(sep)] for a one-character separator. *)
Fixpoint str_split (sep : ascii) (s : string) : list string :=
  match s with
  | EmptyString => [EmptyString]
  | String c s' =>
      if Ascii.eqb c sep then EmptyString :: str_split sep s'
      else match str_split sep s' with
           | [] => [String c EmptyString]
           | h :: t => String c h :: t
           end
  end.

(** [c in s] for a character [c]. *)
Fixpoint str_mem (c : ascii) (s : string) : bool :=
  match s with
  | EmptyString => false
  | String c' s' => Ascii.eqb c' c || str_mem c s'
  end.

(** ** [datetime] and [strftime("%Y%m%d_%H%M%S")] *)

Record datetime : Type := mk_datetime {
  year : Z; month : Z; day : Z;
  hour : Z; minute : Z; second : Z; microsecond : Z
}.

Definition is_leap (y : Z) : bool :=
  (y mod 4 =? 0) && (negb (y mod 100 =? 0) || (y mod 400 =? 0)).

(** Number of days before January 1st of year [y] ([_days_before_year]). *)
Definition days_before_year (y : Z) : Z :=
  let y' := y - 1 in y' * 365 + y' / 4 - y' / 100 + y' / 400.

Definition days_in_month (y m : Z) : Z :=
  if (m =? 2) && is_leap y then 29
  else nth (Z.to_nat m) [0; 31; 28; 31; 30; 31; 30; 31; 31; 30; 31; 30; 31] 0.

(** Number of days in year [y] before the first day of month [m]. *)
Definition days_before_month (y m : Z) : Z :=
  nth (Z.to_nat m) [0; 0; 31; 59; 90; 120; 151; 181; 212; 243; 273; 304; 334] 0
  + (if (2 <? m) && is_leap y then 1 else 0).

(** [d.toordinal()] *)
Definition toordinal (d : datetime) : Z :=
  days_before_year (year d) + days_before_month (year d) (month d) + day d.

(** The position of [d] on the time line of naive datetimes, in
    microseconds: [(d - datetime.min) / timedelta(microseconds=1)] up to
    the constant offset of one day. *)
Definition to_microseconds (d : datetime) : Z :=
  ((toordinal d * 24 + hour d) * 60 + minute d) * 60 * 1000000
  + second d * 1000000 + microsecond d.

(** A value that [datetime.now()] can return: the field ranges of the
    class, with four-digit years (below 1000 the rendering of [%Y] differs
    between C libraries). *)
Definition clock_datetime (d : datetime) : bool :=
  (1000 <=? year d) && (year d <=? 9999)
  && (1 <=? month d) && (month d <=? 12)
  && (1 <=? day d) && (day d <=? days_in_month (year d) (month d))
  && (0 <=? hour d) && (hour d <? 24)
  && (0 <=? minute d) && (minute d <? 60)
  && (0 <=? second d) && (second d <? 60)
  && (0 <=? microsecond d) && (microsecond d <? 1000000).

(** [chr(ord('0') + n)] *)
Definition digit (n : Z) : ascii := ascii_of_nat (Z.to_nat (48 + n)).

(** Two decimal digits, zero padded ([%m], [%d], [%H], [%M], [%S]). *)
Definition pad2 (n : Z) (k : string) : string :=
  String (digit (n / 10)) (String (digit (n mod 10)) k).

(** Four decimal digits ([%Y]). *)
Definition pad4 (n : Z) (k : string) : string :=
  pad2 (n / 100) (pad2 (n mod 100) k).

(** [d.strftime("%Y%m%d_%H%M%S")], followed by [k]. *)
Definition strftime_then (d : datetime) (k : string) : string :=
  pad4 (year d) (pad2 (month d) (pad2 (day d)
    (String "_" (pad2 (hour d) (pad2 (minute d) (pad2 (second d) k)))))).

Definition strftime (d : datetime) : string := strftime_then d "".

(** ** [pathlib] (POSIX flavour) *)

(** [posixpath.join(a, b)] for a non-empty [a] that does not end in a
    slash. *)
Definition posix_join (a b : string) : string :=
  match b with
  | String "/" _ => b
  | _ => a +:+ "/" +:+ b
  end.

(** The components pathlib keeps: neither empty nor [.]. *)
Definition keeps_part (x : string) : bool :=
  negb (String.eqb x "") && negb (String.eqb x ".").

(** [str(PurePosixPath(p))]: empty and [.] components are dropped. *)
Definition path_str (p : string) : string :=
  let parts := List.filter keeps_part (str_split "/" p) in
  match p with
  | String "/" _ => "/" +:+ String.concat "/" parts
  | _ => match parts with [] => "." | _ => String.concat "/" parts end
  end.

(** [UPLOAD_DIR = Path("uploads")] *)
Definition UPLOAD_DIR : string := "uploads".

(** [str(base / key)] *)
Definition path_div (base key : string) : string :=
  path_str (posix_join base key).

Example strftime_ex :
  strftime (mk_datetime 2024 3 9 7 5 0 123456) = "20240309_070500".
Proof. reflexivity. Qed.

Example path_div_ex1 :
  path_div UPLOAD_DIR "20240309_070500_a.txt" = "uploads/20240309_070500_a.txt".
Proof. reflexivity. Qed.

Example path_div_ex2 :
  path_div UPLOAD_DIR "t_a//./b" = "uploads/t_a/b".
Proof. reflexivity. Qed.

(** ** Requests, responses and token sequences *)

(** [ChatMessage]; [ReasonRequest] has the same single field. *)
Record ChatMessage : Type := { messages : list message }.
Abbreviation ReasonRequest := ChatMessage.

Record RAGChatRequest : Type := {
  rag_messages : list message;
  index_id : string
}.

(** The part of FastAPI's [UploadFile] the handler uses: [file.filename],
    [file.content_type] and the bytes [await file.read()] yields when it
    does not raise. *)
Record UploadFile : Type := {
  filename : string;
  content_type : option string;
  content : list byte
}.

(** How a lazy sequence of tokens ends: exhausted, or an exception raised
    from inside the generator. *)
Inductive ending : Type :=
  | Completes
  | Fails (e : exn).

(** The value of [service.generate_stream(...)]: the chunks it yields, in
    order, and how it ends. *)
Record token_stream : Type := mk_stream {
  tokens : list string;
  ending_of : ending
}.

(** What [process_file] can hand back: a mapping, or an object of another
    type (named by its class). *)
Inductive pyobj : Type :=
  | Mapping (d : dict)
  | Other (type_name : string).

(** What a handler returns. *)
Inductive response : Type :=
  | StreamingResponse (body : token_stream) (media_type : string)
  | RDict (d : dict)
  | RStr (s : string).

(** ** The environment of a handler *)

(** The calls that leave [main.py]. *)
Inductive call : Type :=
  | LoggerInfo (msg : string)
  | LoggerError (msg : string)
  | LogStructured (event : string) (payload : dict)
  | Print (text : string)
  | Mkdir (path : string)
  | FileRead
  | OpenWb (path : string)
  | FileWrite (path : string) (data : list byte)
  | CreateChatService
  | CreateReasonerService
  | NewSearchService
  | NewRAGChatService
  | NewRAGService
  | ChatGenerateStream (msgs : list message)
  | ReasonerGenerateStream (msgs : list message)
  | SearchGenerateStream (query : string)
  | RAGChatGenerateStream (msgs : list message) (index : string)
  | ProcessFile (file_info : dict).

(** [raises c] is the exception the call [c] raises, if it does; the other
    fields give what the value-returning calls return when they do not
    raise.  [py_str_dict] is the built-in [str()] on a dict. *)
Record Env : Type := {
  raises : call -> option exn;
  chat_stream : list message -> token_stream;
  reasoner_stream : list message -> token_stream;
  search_stream : string -> token_stream;
  rag_chat_stream : list message -> string -> token_stream;
  process_file_result : dict -> pyobj;
  py_str_dict : dict -> string
}.

(** The files written so far (path to content) and the calls made so far,
    oldest first. *)
Record state : Type := mk_state {
  files : gmap string (list byte);
  trace : list call
}.

(** ** Statements: a state and completion monad *)

(** How a block of statements completes: it runs to its end (with the
    value it computed), executes [return], or raises. *)
Inductive completion (A : Type) : Type :=
  | Normal (a : A)
  | Returned (r : response)
  | Raised (e : exn).
Arguments Normal {A} a.
Arguments Returned {A} r.
Arguments Raised {A} e.

Definition M (A : Type) : Type := state -> completion A * state.

#[global] Instance M_ret : MRet M := fun A a st => (Normal a, st).

#[global] Instance M_bind : MBind M := fun A B f m st =>
  match m st with
  | (Normal a, st') => f a st'
  | (Returned r, st') => (Returned r, st')
  | (Raised e, st') => (Raised e, st')
  end.

(** [raise e] *)
Definition raise {A} (e : exn) : M A := fun st => (Raised e, st).

(** [return r] *)
Definition return_ {A} (r : response) : M A := fun st => (Returned r, st).

(** [try: body  except Exception as e: handler] *)
Definition try_except {A} (body : M A) (handler : exn -> M A) : M A :=
  fun st =>
    match body st with
    | (Raised e, st') => handler e st'
    | done => done
    end.

Definition record_call (c : call) (st : state) : state :=
  mk_state (files st) (trace st ++ [c]).

Definition store (path : string) (data : list byte) : M unit :=
  fun st => (Normal (), mk_state (<[path := data]> (files st)) (trace st)).

Section Handlers.

Context (env : Env).

(** A call that leaves the module: recorded, then it raises or returns. *)
Definition ext (c : call) : M unit := fun st =>
  match raises env c with
  | Some e => (Raised e, record_call c st)
  | None => (Normal (), record_call c st)
  end.

(** [l[-1]] *)
Definition getitem_last {A} (l : list A) : M A :=
  match last l with
  | Some x => mret x
  | None => raise (PyExc "IndexError" "list index out of range")
  end.

(** [l[0]] *)
Definition getitem_first {A} (l : list A) : M A :=
  match l with
  | x :: _ => mret x
  | [] => raise (PyExc "IndexError" "list index out of range")
  end.

(** [m[key]]; [str(KeyError(key))] is the [repr] of the key, written here
    for keys without quotes or escapes. *)
Definition getitem (m : message) (key : string) : M string :=
  match m !! key with
  | Some v => mret v
  | None => raise (PyExc "KeyError" ("'" +:+ key +:+ "'"))
  end.

(** [{**a, **b}]: the keys of both, [b] winning where both have one. *)
Definition dict_merge (a : dict) (b : pyobj) : M dict :=
  match b with
  | Mapping d => mret (d ∪ a)
  | Other tn => raise (PyExc "TypeError" ("'" +:+ tn +:+ "' object is not a mapping"))
  end.

(** The payload of the [chat_request] and [reason_request] log records. *)
Definition preview_payload (msgs : list message) : M dict :=
  lst ← getitem_last msgs;
  c ← getitem lst "content";
  mret ({[ "message_count" := VInt (Z.of_nat (List.length msgs));
           "last_message" := VStr (str_prefix 100 c +:+ "...") ]} : dict).

Definition chat_endpoint (request : ChatMessage) : M unit :=
  try_except
    (ext (LoggerInfo "Processing chat request");;
     ext CreateChatService;;
     payload ← preview_payload (messages request);
     ext (LogStructured "chat_request" payload);;
     ext (ChatGenerateStream (messages request));;
     return_ (StreamingResponse (chat_stream env (messages request))
                                "text/event-stream"))
    (fun e =>
       ext (LoggerError ("Chat error: " +:+ str_exn e));;
       raise (HTTPException 500 (str_exn e))).

Definition reason_endpoint (request : ReasonRequest) : M unit :=
  try_except
    (ext (LoggerInfo "Processing reasoning request");;
     ext CreateReasonerService;;
     payload ← preview_payload (messages request);
     ext (LogStructured "reason_request" payload);;
     ext (ReasonerGenerateStream (messages request));;
     return_ (StreamingResponse (reasoner_stream env (messages request))
                                "text/event-stream"))
    (fun e =>
       ext (LoggerError ("Reasoning error: " +:+ str_exn e));;
       raise (HTTPException 500 (str_exn e))).

Definition search_endpoint (request : ChatMessage) : M unit :=
  try_except
    (ext NewSearchService;;
     first ← getitem_first (messages request);
     query ← getitem first "content";
     ext (SearchGenerateStream query);;
     return_ (StreamingResponse (search_stream env query) "text/event-stream"))
    (fun e => raise (HTTPException 500 (str_exn e))).

Definition rag_chat_endpoint (request : RAGChatRequest) : M unit :=
  try_except
    (ext NewRAGChatService;;
     ext (RAGChatGenerateStream (rag_messages request) (index_id request));;
     return_ (StreamingResponse
                (rag_chat_stream env (rag_messages request) (index_id request))
                "text/event-stream"))
    (fun e => raise (HTTPException 500 (str_exn e))).

(** [f"{timestamp}_{file.filename}"] with
    [timestamp = datetime.now().strftime("%Y%m%d_%H%M%S")]. *)
Definition stored_filename (now : datetime) (original_name : string) : string :=
  strftime now +:+ "_" +:+ original_name.

(** [str(UPLOAD_DIR / filename)], where the bytes are written. *)
Definition stored_path (now : datetime) (original_name : string) : string :=
  path_div UPLOAD_DIR (stored_filename now original_name).

Definition value_of_type (t : option string) : value :=
  match t with Some s => VStr s | None => VNone end.

(** The [file_info] dictionary of [upload_file]. *)
Definition file_info_of (file : UploadFile) (now : datetime) : dict :=
  {[ "filename" := VStr (stored_filename now (filename file));
     "original_name" := VStr (filename file);
     "size" := VInt (Z.of_nat (List.length (content file)));
     "type" := value_of_type (content_type file);
     "path" := VStr (str_replace "\" "/" (stored_path now (filename file))) ]}.

Definition LF : string := String "010" "".

(** The [try] block of [upload_file].  [file_ext], computed from the name
    and never used, is left out: [Path(name).suffix.lower()] neither raises
    on a [str] nor has an effect. *)
Definition upload_try (file : UploadFile) (now : datetime) : M dict :=
  ext (LoggerInfo ("Uploading file: " +:+ filename file));;
  let file_path := stored_path now (filename file) in
  ext (Mkdir UPLOAD_DIR);;
  ext FileRead;;
  ext (OpenWb file_path);;
  store file_path [];;
  ext (FileWrite file_path (content file));;
  store file_path (content file);;
  let file_info := file_info_of file now in
  ext (Print ("文件已保存到: " +:+ file_path));;
  ext NewRAGService;;
  ext (ProcessFile file_info);;
  result ← dict_merge file_info (process_file_result env file_info);
  ext (LogStructured "file_upload"
         {[ "filename" := VStr (filename file);
            "size" := VInt (Z.of_nat (List.length (content file)));
            "type" := value_of_type (content_type file) ]});;
  return_ (RDict result).

(** The [except Exception as e] block of [upload_file]. *)
Definition upload_except (e : exn) : M dict :=
  ext (LoggerError ("Upload failed: " +:+ str_exn e));;
  return_ (RDict {[ "error" := VStr (str_exn e) ]}).

(** The [try] statement of [upload_file]; were it to complete normally,
    its value would be the local [result]. *)
Definition upload_try_except (file : UploadFile) (now : datetime) : M dict :=
  try_except (upload_try file now) upload_except.

Definition upload_file (file : UploadFile) (now : datetime) : M unit :=
  result ← upload_try_except file now;
  return_ (RStr ("data: " +:+ py_str_dict env result +:+ LF +:+ LF)).

End Handlers.

(** ** What the framework makes of a completion *)

Inductive http_body : Type :=
  | BodyStream (s : token_stream) (media_type : string)
  | BodyJson (d : dict)
  | BodyJsonStr (s : string)
  | BodyJsonNull
  | BodyText (s : string).

Record http_response : Type := mk_response {
  status : Z;
  body_of : http_body
}.

(** FastAPI's treatment of a handler: a returned response object is sent
    as it is, any other returned value is serialised as JSON with status
    200, an [HTTPException] becomes a JSON error of its status code, and
    any other exception is answered by the server-error middleware. *)
Definition respond {A} (c : completion A) : http_response :=
  match c with
  | Returned (StreamingResponse s mt) => mk_response 200 (BodyStream s mt)
  | Returned (RDict d) => mk_response 200 (BodyJson d)
  | Returned (RStr s) => mk_response 200 (BodyJsonStr s)
  | Normal _ => mk_response 200 BodyJsonNull
  | Raised (HTTPException sc d) =>
      mk_response sc (BodyJson {[ "detail" := VStr d ]})
  | Raised (PyExc _ _) => mk_response 500 (BodyText "Internal Server Error")
  end.

Definition is_stream (r : http_response) : bool :=
  match body_of r with BodyStream _ _ => true | _ => false end.






(** ** Sample environments *)

Definition st0 : state := mk_state ∅ [].

Definition sample_stream : token_stream :=
  mk_stream ["data: Hel" +:+ LF +:+ LF; "data: lo" +:+ LF +:+ LF] Completes.

(** Every collaborator works; indexing yields an index id. *)
Definition env_ok : Env := {|
  raises := fun _ => None;
  chat_stream := fun _ => sample_stream;
  reasoner_stream := fun _ => sample_stream;
  search_stream := fun _ => sample_stream;
  rag_chat_stream := fun _ _ => sample_stream;
  process_file_result := fun _ => Mapping {[ "index_id" := VStr "idx-1" ]};
  py_str_dict := fun _ => "{...}"
|}.

(** [env] with another answer to "does this call raise". *)
Definition with_raises (env : Env) (f : call -> option exn) : Env := {|
  raises := f;
  chat_stream := chat_stream env;
  reasoner_stream := reasoner_stream env;
  search_stream := search_stream env;
  rag_chat_stream := rag_chat_stream env;
  process_file_result := process_file_result env;
  py_str_dict := py_str_dict env
|}.

(** [env] with another result of [process_file]. *)
Definition with_process_file (env : Env) (f : dict -> pyobj) : Env := {|
  raises := raises env;
  chat_stream := chat_stream env;
  reasoner_stream := reasoner_stream env;
  search_stream := search_stream env;
  rag_chat_stream := rag_chat_stream env;
  process_file_result := f;
  py_str_dict := py_str_dict env
|}.

Definition hello : ChatMessage :=
  {| messages := [ {[ "role" := "user"; "content" := "hello" ]} ] |}.

Definition notes_txt : UploadFile :=
  {| filename := "notes.txt";
     content_type := Some "text/plain";
     content := [x68; x69] |}.

Definition noon : datetime := mk_datetime 2024 3 9 12 0 0 0.

Example chat_hello :
  chat_endpoint env_ok hello st0
  = (Returned (StreamingResponse sample_stream "text/event-stream"),
     mk_state ∅
       [LoggerInfo "Processing chat request"; CreateChatService;
        LogStructured "chat_request"
          {[ "message_count" := VInt 1; "last_message" := VStr "hello..." ]};
        ChatGenerateStream (messages hello)]).
Proof. vm_compute. reflexivity. Qed.

Example upload_notes :
  fst (upload_file env_ok notes_txt noon st0)
  = Returned (RDict
      {[ "filename" := VStr "20240309_120000_notes.txt";
         "original_name" := VStr "notes.txt";
         "size" := VInt 2;
         "type" := VStr "text/plain";
         "path" := VStr "uploads/20240309_120000_notes.txt";
         "index_id" := VStr "idx-1" ]}).
Proof. vm_compute. reflexivity. Qed.

(** * Properties *)

(** ** Stored file names *)

Definition same_second (d1 d2 : datetime) : Prop :=
  year d1 = year d2 /\ month d1 = month d2 /\ day d1 = day d2 /\
  hour d1 = hour d2 /\ minute d1 = minute d2 /\ second d1 = second d2.

(** Linear arithmetic with quotients and remainders by constants. *)
Ltac div_bounds := Z.to_euclidean_division_equations; lia.

Lemma digit_inj a b :
  0 <= a < 10 -> 0 <= b < 10 -> digit a = digit b -> a = b.
Proof.
  intros Ha Hb H. apply (f_equal nat_of_ascii) in H. unfold digit in H.
  rewrite !nat_ascii_embedding in H by lia. lia.
Qed.

Lemma pad2_inj a b k k' :
  0 <= a < 100 -> 0 <= b < 100 -> pad2 a k = pad2 b k' -> a = b /\ k = k'.
Proof.
  intros Ha Hb H. unfold pad2 in H. injection H as H1 H2 H3.
  apply digit_inj in H1; [| div_bounds | div_bounds].
  apply digit_inj in H2; [| div_bounds | div_bounds].
  split; [div_bounds | assumption].
Qed.

Lemma pad4_inj a b k k' :
  0 <= a < 10000 -> 0 <= b < 10000 -> pad4 a k = pad4 b k' -> a = b /\ k = k'.
Proof.
  intros Ha Hb H. unfold pad4 in H.
  apply pad2_inj in H as [H1 H2]; [| div_bounds | div_bounds].
  apply pad2_inj in H2 as [H2 H3]; [| div_bounds | div_bounds].
  split; [div_bounds | assumption].
Qed.

Lemma String_tail_inj (c : ascii) (s s' : string) :
  String c s = String c s' -> s = s'.
Proof. intros H. injection H as H. exact H. Qed.

Lemma days_in_month_le y m : days_in_month y m <= 31.
Proof.
  unfold days_in_month. destruct ((m =? 2) && is_leap y); [lia |].
  generalize (Z.to_nat m). intros n.
  do 13 (destruct n as [| n]; [simpl; lia |]). destruct n; simpl; lia.
Qed.

Record field_ranges (d : datetime) : Prop := {
  fr_year : 1000 <= year d < 10000;
  fr_month : 0 <= month d < 100;
  fr_day : 0 <= day d < 100;
  fr_hour : 0 <= hour d < 100;
  fr_minute : 0 <= minute d < 100;
  fr_second : 0 <= second d < 100;
  fr_microsecond : 0 <= microsecond d < 1000000
}.

Lemma clock_datetime_ranges d : clock_datetime d = true -> field_ranges d.
Proof.
  unfold clock_datetime. rewrite !andb_true_iff, !Z.leb_le, !Z.ltb_lt.
  intros H. pose proof (days_in_month_le (year d) (month d)).
  split; lia.
Qed.

Lemma strftime_then_inj d1 d2 k k' :
  field_ranges d1 -> field_ranges d2 ->
  strftime_then d1 k = strftime_then d2 k' -> same_second d1 d2 /\ k = k'.
Proof.
  intros [] [] H. unfold strftime_then in H.
  apply pad4_inj in H as [Hy H]; [| lia | lia].
  apply pad2_inj in H as [Hm H]; [| lia | lia].
  apply pad2_inj in H as [Hd H]; [| lia | lia].
  apply String_tail_inj in H.
  apply pad2_inj in H as [Hh H]; [| lia | lia].
  apply pad2_inj in H as [Hmi H]; [| lia | lia].
  apply pad2_inj in H as [Hs H]; [| lia | lia].
  unfold same_second. tauto.
Qed.

Lemma stored_filename_unfold now name :
  stored_filename now name = strftime_then now ("_" +:+ name).
Proof. reflexivity. Qed.

Lemma same_second_microseconds d1 d2 :
  same_second d1 d2 ->
  to_microseconds d1 - to_microseconds d2 = microsecond d1 - microsecond d2.
Proof.
  destruct d1, d2. unfold same_second, to_microseconds, toordinal. simpl.
  intros (-> & -> & -> & -> & -> & ->). lia.
Qed.

(** C5. The stored name is [strftime("%Y%m%d_%H%M%S")], an underscore and
    the original name.  Two uploads of the same original name whose clock
    readings are more than one second apart get distinct stored names; two
    whose readings fall in the same clock second get the same one. *)
Theorem stored_filename_seconds_granularity (d1 d2 : datetime) (name : string) :
  clock_datetime d1 = true ->
  clock_datetime d2 = true ->
  stored_filename d1 name = strftime d1 +:+ "_" +:+ name /\
  (1000000 < Z.abs (to_microseconds d1 - to_microseconds d2) ->
   stored_filename d1 name <> stored_filename d2 name) /\
  (same_second d1 d2 -> stored_filename d1 name = stored_filename d2 name).
Proof.
  intros H1 H2.
  apply clock_datetime_ranges in H1. apply clock_datetime_ranges in H2.
  split; [reflexivity | split].
  - intros Hfar Heq. rewrite !stored_filename_unfold in Heq.
    apply strftime_then_inj in Heq as [Hsame _]; [| assumption..].
    apply same_second_microseconds in Hsame.
    destruct H1, H2. lia.
  - intros (Hy & Hm & Hd & Hh & Hmi & Hs).
    unfold stored_filename, strftime, strftime_then.
    rewrite Hy, Hm, Hd, Hh, Hmi, Hs. reflexivity.
Qed.

Lemma stored_filename_seconds_granularity_witness :
  stored_filename noon "a.txt" = "20240309_120000_a.txt" /\
  stored_filename noon "a.txt"
    <> stored_filename (mk_datetime 2024 3 9 12 0 2 0) "a.txt" /\
  stored_filename noon "a.txt"
    = stored_filename (mk_datetime 2024 3 9 12 0 0 999999) "a.txt".
Proof.
  destruct (stored_filename_seconds_granularity
              noon (mk_datetime 2024 3 9 12 0 2 0) "a.txt"
              eq_refl eq_refl) as (H1 & H2 & _).
  destruct (stored_filename_seconds_granularity
              noon (mk_datetime 2024 3 9 12 0 0 999999) "a.txt"
              eq_refl eq_refl) as (_ & _ & H3).
  split; [exact H1 | split].
  - apply H2. vm_compute. reflexivity.
  - apply H3. vm_compute. repeat split.
Defined.

(** ** Running handlers *)

Section Running.

Context (env : Env).

Lemma ext_returns {B} (c : call) (k : unit -> M B) (st : state) :
  raises env c = None -> (ext env c ≫= k) st = k () (record_call c st).
Proof. intros H. unfold mbind, M_bind, ext. rewrite H. reflexivity. Qed.

Lemma ext_raises {B} (c : call) (k : unit -> M B) (st : state) (e : exn) :
  raises env c = Some e -> (ext env c ≫= k) st = (Raised e, record_call c st).
Proof. intros H. unfold mbind, M_bind, ext. rewrite H. reflexivity. Qed.

Lemma ret_bind {A B} (a : A) (k : A -> M B) (st : state) :
  (mret a ≫= k) st = k a st.
Proof. reflexivity. Qed.

Lemma raise_bind {A B} (e : exn) (k : A -> M B) (st : state) :
  (raise e ≫= k) st = (Raised e, st).
Proof. reflexivity. Qed.

Lemma getitem_found {B} (m : message) key v (k : string -> M B) (st : state) :
  m !! key = Some v -> (getitem m key ≫= k) st = k v st.
Proof. intros H. unfold getitem. rewrite H. reflexivity. Qed.

Lemma getitem_missing {B} (m : message) key (k : string -> M B) (st : state) :
  m !! key = None ->
  (getitem m key ≫= k) st = (Raised (PyExc "KeyError" ("'" +:+ key +:+ "'")), st).
Proof. intros H. unfold getitem. rewrite H. reflexivity. Qed.

Lemma try_except_raised {A} (body : M A) (h : exn -> M A) st e st' :
  body st = (Raised e, st') -> try_except body h st = h e st'.
Proof. intros H. unfold try_except. rewrite H. reflexivity. Qed.

Lemma try_except_returned {A} (body : M A) (h : exn -> M A) st r st' :
  body st = (Returned r, st') -> try_except body h st = (Returned r, st').
Proof. intros H. unfold try_except. rewrite H. reflexivity. Qed.

End Running.

(** Rewrites the next external call of the goal with what the hypotheses
    say about it. *)
Ltac next_call :=
  first [ rewrite ext_returns by (assumption || reflexivity)
        | erewrite ext_raises by (eassumption || reflexivity) ].

(** Closes a goal whose two sides differ in how the trace is bracketed. *)
Ltac same_trace :=
  unfold return_, raise, record_call; simpl; rewrite <- ?app_assoc; reflexivity.

(** ** The two routes that go through the factory *)

Inductive llm_route : Type := ChatRoute | ReasonRoute.

Definition llm_handler (env : Env) (r : llm_route) : ChatMessage -> M unit :=
  match r with
  | ChatRoute => chat_endpoint env
  | ReasonRoute => reason_endpoint env
  end.

Definition info_message (r : llm_route) : string :=
  match r with
  | ChatRoute => "Processing chat request"
  | ReasonRoute => "Processing reasoning request"
  end.

Definition create_call (r : llm_route) : call :=
  match r with
  | ChatRoute => CreateChatService
  | ReasonRoute => CreateReasonerService
  end.

Definition error_prefix (r : llm_route) : string :=
  match r with
  | ChatRoute => "Chat error: "
  | ReasonRoute => "Reasoning error: "
  end.

Definition log_event (r : llm_route) : string :=
  match r with
  | ChatRoute => "chat_request"
  | ReasonRoute => "reason_request"
  end.

Definition generate_call (r : llm_route) (msgs : list message) : call :=
  match r with
  | ChatRoute => ChatGenerateStream msgs
  | ReasonRoute => ReasonerGenerateStream msgs
  end.

Definition backend_stream (env : Env) (r : llm_route) : list message -> token_stream :=
  match r with
  | ChatRoute => chat_stream env
  | ReasonRoute => reasoner_stream env
  end.

(** Both handlers are the same flow over their own collaborators. *)
Lemma llm_handler_unfold env r request :
  llm_handler env r request =
  try_except
    (ext env (LoggerInfo (info_message r));;
     ext env (create_call r);;
     payload ← preview_payload (messages request);
     ext env (LogStructured (log_event r) payload);;
     ext env (generate_call r (messages request));;
     return_ (StreamingResponse (backend_stream env r (messages request))
                                "text/event-stream"))
    (fun e =>
       ext env (LoggerError (error_prefix r +:+ str_exn e));;
       raise (HTTPException 500 (str_exn e))).
Proof. destruct r; reflexivity. Qed.

(** The [except] block of both handlers, when its log call returns. *)
Lemma llm_except_logged env r e st :
  raises env (LoggerError (error_prefix r +:+ str_exn e)) = None ->
  (ext env (LoggerError (error_prefix r +:+ str_exn e));;
   raise (HTTPException 500 (str_exn e)) : M unit) st
  = (Raised (HTTPException 500 (str_exn e)),
     record_call (LoggerError (error_prefix r +:+ str_exn e)) st).
Proof. intros H. next_call. reflexivity. Qed.

(** C7. When the factory fails to build the chat or the reasoner service,
    the route raises [HTTPException(500, str(e))]: one JSON error response
    of status 500 carrying the message, no streaming response, and no call
    of [generate_stream] (the error-log call of the handler returning). *)
Theorem construction_failure_is_500
    (env : Env) (r : llm_route) (request : ChatMessage) (st : state) (e : exn) :
  raises env (LoggerInfo (info_message r)) = None ->
  raises env (create_call r) = Some e ->
  raises env (LoggerError (error_prefix r +:+ str_exn e)) = None ->
  let out := llm_handler env r request st in
  out.1 = Raised (HTTPException 500 (str_exn e)) /\
  respond out.1 = mk_response 500 (BodyJson {[ "detail" := VStr (str_exn e) ]}) /\
  is_stream (respond out.1) = false /\
  trace out.2 = (trace st ++ [LoggerInfo (info_message r); create_call r;
                             LoggerError (error_prefix r +:+ str_exn e)])%list.
Proof.
  intros Hinfo Hcreate Hlog out.
  assert (Hout : out = (Raised (HTTPException 500 (str_exn e)),
                        record_call (LoggerError (error_prefix r +:+ str_exn e))
                          (record_call (create_call r)
                             (record_call (LoggerInfo (info_message r)) st)))).
  { subst out. rewrite llm_handler_unfold.
    erewrite try_except_raised; [apply llm_except_logged; assumption |].
    next_call. next_call. reflexivity. }
  rewrite Hout. simpl. rewrite <- !app_assoc. auto.
Qed.

Definition no_api_key : exn := PyExc "ValueError" "missing API key".

Definition env_no_chat_backend : Env :=
  with_raises env_ok
    (fun c => match c with CreateChatService => Some no_api_key | _ => None end).

Lemma construction_failure_is_500_witness :
  let out := chat_endpoint env_no_chat_backend hello st0 in
  out.1 = Raised (HTTPException 500 "missing API key") /\
  respond out.1 = mk_response 500 (BodyJson {[ "detail" := VStr "missing API key" ]}) /\
  is_stream (respond out.1) = false /\
  trace out.2 = [LoggerInfo "Processing chat request"; CreateChatService;
                 LoggerError "Chat error: missing API key"].
Proof.
  exact (construction_failure_is_500 env_no_chat_backend ChatRoute hello st0
           no_api_key eq_refl eq_refl eq_refl).
Defined.

(** ** Empty message sequences *)

Definition no_messages : ChatMessage := {| messages := [] |}.

Definition index_error : exn := PyExc "IndexError" "list index out of range".

(** What the [try] block of /chat and /reason raises on an empty message
    sequence once its first log call has returned: the factory's exception,
    or the [IndexError] of [messages[-1]] after the service was built. *)
Definition empty_failure (env : Env) (r : llm_route) : exn :=
  match raises env (create_call r) with
  | Some e => e
  | None => index_error
  end.

Lemma llm_try_empty env r st :
  raises env (LoggerInfo (info_message r)) = None ->
  (ext env (LoggerInfo (info_message r));;
   ext env (create_call r);;
   payload ← preview_payload (messages no_messages);
   ext env (LogStructured (log_event r) payload);;
   ext env (generate_call r (messages no_messages));;
   return_ (StreamingResponse (backend_stream env r (messages no_messages))
                              "text/event-stream") : M unit) st
  = (Raised (empty_failure env r),
     record_call (create_call r) (record_call (LoggerInfo (info_message r)) st)).
Proof.
  intros Hinfo. next_call. unfold empty_failure.
  destruct (raises env (create_call r)) as [e |] eqn:Hcreate.
  - next_call. reflexivity.
  - next_call. reflexivity.
Qed.

(** The claim "an empty message sequence is rejected with a 4xx before any
    backend is constructed" fails: with every collaborator working, /chat
    builds the chat service and then answers 500. *)
Lemma empty_chat_constructs_then_500 :
  let out := chat_endpoint env_ok no_messages st0 in
  respond out.1
  = mk_response 500 (BodyJson {[ "detail" := VStr "list index out of range" ]}) /\
  ~ (400 <= status (respond out.1) < 500) /\
  In CreateChatService (trace out.2).
Proof.
  vm_compute. split; [reflexivity | split].
  - intros [_ H]. discriminate H.
  - right. left. reflexivity.
Qed.

(** C1, as the code has it.  No route inspects the message sequence before
    it builds its backend.  On an empty sequence /chat and /reason attempt
    the construction and then raise [HTTPException(500, ...)], with the
    message of the [IndexError] when the construction succeeded; /search
    constructs its service and always ends in a 500; /chat-rag constructs
    its service and passes the empty sequence on, answering with the
    backend's stream. *)
Theorem empty_messages_reach_construction (env : Env) (st : state) :
  (forall r,
     raises env (LoggerInfo (info_message r)) = None ->
     raises env (LoggerError (error_prefix r +:+ str_exn (empty_failure env r))) = None ->
     llm_handler env r no_messages st
     = (Raised (HTTPException 500 (str_exn (empty_failure env r))),
        mk_state (files st)
          (trace st ++ [LoggerInfo (info_message r); create_call r;
                        LoggerError (error_prefix r +:+ str_exn (empty_failure env r))]))) /\
  (exists detail,
     search_endpoint env no_messages st
     = (Raised (HTTPException 500 detail), record_call NewSearchService st) /\
     (raises env NewSearchService = None -> detail = "list index out of range")) /\
  (forall idx,
     raises env NewRAGChatService = None ->
     raises env (RAGChatGenerateStream [] idx) = None ->
     rag_chat_endpoint env {| rag_messages := []; index_id := idx |} st
     = (Returned (StreamingResponse (rag_chat_stream env [] idx) "text/event-stream"),
        mk_state (files st)
          (trace st ++ [NewRAGChatService; RAGChatGenerateStream [] idx]))).
Proof.
  split; [| split].
  - intros r Hinfo Hlog. rewrite llm_handler_unfold.
    erewrite try_except_raised; [| apply llm_try_empty; assumption].
    rewrite llm_except_logged by assumption.
    unfold record_call. simpl. rewrite <- !app_assoc. reflexivity.
  - unfold search_endpoint, try_except.
    destruct (raises env NewSearchService) as [e |] eqn:Hnew.
    + exists (str_exn e). erewrite ext_raises by eassumption.
      split; [reflexivity | discriminate].
    + exists "list index out of range". rewrite ext_returns by assumption.
      split; reflexivity.
  - intros idx Hnew Hgen. unfold rag_chat_endpoint, try_except. simpl.
    next_call. next_call.
    unfold return_, record_call. simpl. rewrite <- !app_assoc. reflexivity.
Qed.

Lemma empty_messages_reach_construction_witness :
  chat_endpoint env_ok no_messages st0
  = (Raised (HTTPException 500 "list index out of range"),
     mk_state ∅ [LoggerInfo "Processing chat request"; CreateChatService;
                 LoggerError "Chat error: list index out of range"]) /\
  rag_chat_endpoint env_ok {| rag_messages := []; index_id := "idx-1" |} st0
  = (Returned (StreamingResponse sample_stream "text/event-stream"),
     mk_state ∅ [NewRAGChatService; RAGChatGenerateStream [] "idx-1"]).
Proof.
  destruct (empty_messages_reach_construction env_ok st0) as (Hllm & _ & Hrag).
  split.
  - exact (Hllm ChatRoute eq_refl eq_refl).
  - exact (Hrag "idx-1" eq_refl eq_refl).
Defined.

(** ** The search route *)

(** C8. On a non-empty message sequence whose first message has a
    [content], /search (its service built) calls [generate_stream] with
    exactly that content and streams what the call returns; the messages
    after the first play no part. *)
Theorem search_query_is_first_content
    (env : Env) (st : state) (first : message) (rest : list message) (q : string) :
  first !! "content" = Some q ->
  raises env NewSearchService = None ->
  search_endpoint env {| messages := first :: rest |} st
  = (match raises env (SearchGenerateStream q) with
     | None => Returned (StreamingResponse (search_stream env q) "text/event-stream")
     | Some e => Raised (HTTPException 500 (str_exn e))
     end,
     mk_state (files st) (trace st ++ [NewSearchService; SearchGenerateStream q])) /\
  (forall rest',
     search_endpoint env {| messages := first :: rest' |} st
     = search_endpoint env {| messages := first :: rest |} st).
Proof.
  intros Hq Hnew. split; [| reflexivity].
  unfold search_endpoint, try_except. next_call.
  unfold getitem_first, messages. rewrite ret_bind.
  erewrite getitem_found by eassumption.
  destruct (raises env (SearchGenerateStream q)) as [e |] eqn:Hgen.
  - erewrite ext_raises by eassumption. same_trace.
  - rewrite ext_returns by assumption. same_trace.
Qed.

Lemma search_query_is_first_content_witness :
  search_endpoint env_ok
    {| messages := [ {[ "content" := "rocq" ]}; {[ "content" := "ignored" ]} ] |} st0
  = (Returned (StreamingResponse sample_stream "text/event-stream"),
     mk_state ∅ [NewSearchService; SearchGenerateStream "rocq"]).
Proof.
  exact (proj1 (search_query_is_first_content env_ok st0
                  {[ "content" := "rocq" ]} [ {[ "content" := "ignored" ]} ] "rocq"
                  eq_refl eq_refl)).
Defined.

(** ** Streaming *)

(** Unfolds the statements of a handler down to the environment. *)
Ltac unfold_statements :=
  unfold try_except, preview_payload, getitem_last, getitem_first, getitem,
    dict_merge, store, ext, return_, raise, mbind, M_bind, mret, M_ret in *.

Lemma store_bind {B} path data (k : unit -> M B) (st : state) :
  (store path data ≫= k) st
  = k () (mk_state (<[path := data]> (files st)) (trace st)).
Proof. reflexivity. Qed.

(** The two ways a call continues. *)
Lemma ext_bind_cases {B} env (c : call) (k : unit -> M B) (st : state) :
  (ext env c ≫= k) st
  = match raises env c with
    | Some e => (Raised e, record_call c st)
    | None => k () (record_call c st)
    end.
Proof. unfold mbind, M_bind, ext. destruct (raises env c); reflexivity. Qed.

Lemma preview_payload_cases {B} (msgs : list message) (k : dict -> M B)
    (st : state) :
  (preview_payload msgs ≫= k) st
  = match last msgs with
    | None => (Raised (PyExc "IndexError" "list index out of range"), st)
    | Some m =>
        match m !! "content" with
        | None => (Raised (PyExc "KeyError" "'content'"), st)
        | Some c =>
            k {[ "message_count" := VInt (Z.of_nat (List.length msgs));
                 "last_message" := VStr (str_prefix 100 c +:+ "...") ]} st
        end
    end.
Proof.
  unfold preview_payload, getitem_last, getitem, mbind, M_bind, mret, M_ret, raise.
  destruct (last msgs) as [m |]; [| reflexivity].
  destruct (m !! "content"); reflexivity.
Qed.

Lemma dict_merge_cases {B} (a : dict) (b : pyobj) (k : dict -> M B) (st : state) :
  (dict_merge a b ≫= k) st
  = match b with
    | Mapping d => k (d ∪ a) st
    | Other tn =>
        (Raised (PyExc "TypeError" ("'" +:+ tn +:+ "' object is not a mapping")), st)
    end.
Proof. destruct b; reflexivity. Qed.


(** One statement of a run given as a hypothesis, by cases on its call. *)
Ltac step_in H :=
  first
    [ rewrite store_bind in H
    | rewrite ret_bind in H
    | rewrite raise_bind in H
    | rewrite ext_bind_cases in H;
      let E := fresh "Hcall" in
      match type of H with
      | context [raises ?env ?c] => destruct (raises env c) eqn:E
      end ].










(** ** The upload route *)

(** The calls the [try] block of [upload_file] makes before the merge, in
    order. *)
Definition upload_calls (file : UploadFile) (now : datetime) : list call :=
  [ LoggerInfo ("Uploading file: " +:+ filename file);
    Mkdir UPLOAD_DIR;
    FileRead;
    OpenWb (stored_path now (filename file));
    FileWrite (stored_path now (filename file)) (content file);
    Print ("文件已保存到: " +:+ stored_path now (filename file));
    NewRAGService;
    ProcessFile (file_info_of file now) ].

(** The structured log record written after the merge. *)
Definition upload_log_call (file : UploadFile) : call :=
  LogStructured "file_upload"
    {[ "filename" := VStr (filename file);
       "size" := VInt (Z.of_nat (List.length (content file)));
       "type" := value_of_type (content_type file) ]}.

(** The files after the [with open(...)] block has run. *)
Definition files_after_write (file : UploadFile) (now : datetime)
    (fs : gmap string (list byte)) : gmap string (list byte) :=
  <[stored_path now (filename file) := content file]>
    (<[stored_path now (filename file) := []]> fs).

(** The [try] block returns exactly when each of its calls returns and
    the indexing result is a mapping; it then returns the merge. *)
Lemma upload_try_returned env file now st r st' :
  upload_try env file now st = (Returned r, st') ->
  Forall (fun c => raises env c = None) (upload_calls file now) /\
  raises env (upload_log_call file) = None /\
  exists rag,
    process_file_result env (file_info_of file now) = Mapping rag /\
    r = RDict (rag ∪ file_info_of file now) /\
    files st' = files_after_write file now (files st) /\
    trace st' = (trace st ++ upload_calls file now ++ [upload_log_call file])%list.
Proof.
  unfold upload_try, upload_calls, upload_log_call, files_after_write.
  intros H.
  do 3 (step_in H; [discriminate H |]).
  step_in H; [discriminate H |]. step_in H.
  step_in H; [discriminate H |]. step_in H.
  do 3 (step_in H; [discriminate H |]).
  rewrite dict_merge_cases in H.
  destruct (process_file_result env (file_info_of file now)) as [rag | tn];
    [| discriminate H].
  step_in H; [discriminate H |].
  injection H as <- <-.
  split; [repeat constructor; assumption |].
  split; [reflexivity |].
  exists rag. split; [reflexivity |]. split; [reflexivity |].
  split; [reflexivity |].
  unfold record_call. simpl. rewrite <- !app_assoc. reflexivity.
Qed.

Lemma upload_try_returns env file now st rag :
  Forall (fun c => raises env c = None) (upload_calls file now) ->
  process_file_result env (file_info_of file now) = Mapping rag ->
  raises env (upload_log_call file) = None ->
  upload_try env file now st
  = (Returned (RDict (rag ∪ file_info_of file now)),
     mk_state (files_after_write file now (files st))
       (trace st ++ upload_calls file now ++ [upload_log_call file])).
Proof.
  unfold upload_calls, upload_log_call. intros Hcalls Hrag Hlog.
  repeat match goal with
         | H : Forall _ (_ :: _) |- _ =>
             apply Forall_cons_1 in H; destruct H as [? H]
         end.
  unfold upload_try, files_after_write, store, dict_merge.
  repeat next_call.
  unfold mbind at 1, M_bind. next_call.
  unfold mbind at 1, M_bind. repeat next_call.
  rewrite Hrag. rewrite ret_bind. next_call.
  unfold return_, record_call. simpl. rewrite <- !app_assoc. reflexivity.
Qed.



(** One statement of a handler, by what the hypotheses say of its call. *)
Ltac run_step :=
  first [ rewrite ext_returns by assumption
        | erewrite ext_raises by eassumption
        | rewrite store_bind
        | rewrite ret_bind ].

(** A step of the ingestion flow raises [e]: one of the calls of the [try]
    block (logging, directory creation, reading the upload, opening and
    writing the file, printing, building the RAG service, indexing), the
    earlier ones having returned; or the merge, on an indexing result that
    is no mapping; or the structured log call after the merge. *)
Inductive ingestion_failure (env : Env) (file : UploadFile) (now : datetime)
  : exn -> Prop :=
  | call_fails pre c post e :
      upload_calls file now = (pre ++ c :: post)%list ->
      Forall (fun c' => raises env c' = None) pre ->
      raises env c = Some e ->
      ingestion_failure env file now e
  | merge_fails tn :
      Forall (fun c' => raises env c' = None) (upload_calls file now) ->
      process_file_result env (file_info_of file now) = Other tn ->
      ingestion_failure env file now
        (PyExc "TypeError" ("'" +:+ tn +:+ "' object is not a mapping"))
  | log_fails rag e :
      Forall (fun c' => raises env c' = None) (upload_calls file now) ->
      process_file_result env (file_info_of file now) = Mapping rag ->
      raises env (upload_log_call file) = Some e ->
      ingestion_failure env file now e.

Ltac split_calls H :=
  repeat match type of H with
         | Forall _ (_ :: _) => apply Forall_cons_1 in H; destruct H as [? H]
         end.

Lemma ingestion_failure_raises env file now e st :
  ingestion_failure env file now e ->
  exists st1, upload_try env file now st = (Raised e, st1).
Proof.
  intros [pre c post e' Hsplit Hpre Hc | tn Hcalls Hobj | rag e' Hcalls Hobj Hlog].
  - unfold upload_calls in Hsplit. unfold upload_try.
    do 8 (destruct pre as [| ? pre];
          [ simpl in Hsplit; injection Hsplit as <- <-; split_calls Hpre;
            repeat run_step; eexists; reflexivity
          | simpl in Hsplit; injection Hsplit as <- Hsplit ]).
    destruct pre; discriminate Hsplit.
  - unfold upload_calls in Hcalls. split_calls Hcalls.
    unfold upload_try. repeat run_step. unfold dict_merge. rewrite Hobj.
    rewrite raise_bind. eexists; reflexivity.
  - unfold upload_calls in Hcalls. split_calls Hcalls.
    unfold upload_try. repeat run_step. unfold dict_merge. rewrite Hobj.
    rewrite ret_bind. unfold upload_log_call in Hlog. run_step.
    eexists; reflexivity.
Qed.

(** And every exception the [try] block raises is such a failure. *)
Lemma raised_is_ingestion_failure env file now st e st1 :
  upload_try env file now st = (Raised e, st1) ->
  ingestion_failure env file now e.
Proof.
  unfold upload_try. intros H.
  step_in H;
    [ injection H as <- _;
      eapply (call_fails _ _ _ []); [reflexivity | constructor | eassumption] |].
  step_in H;
    [ injection H as <- _;
      eapply (call_fails _ _ _ [_]);
      [reflexivity | repeat constructor; eassumption | eassumption] |].
  step_in H;
    [ injection H as <- _;
      eapply (call_fails _ _ _ [_; _]);
      [reflexivity | repeat constructor; eassumption | eassumption] |].
  step_in H;
    [ injection H as <- _;
      eapply (call_fails _ _ _ [_; _; _]);
      [reflexivity | repeat constructor; eassumption | eassumption] |].
  step_in H.
  step_in H;
    [ injection H as <- _;
      eapply (call_fails _ _ _ [_; _; _; _]);
      [reflexivity | repeat constructor; eassumption | eassumption] |].
  step_in H.
  step_in H;
    [ injection H as <- _;
      eapply (call_fails _ _ _ [_; _; _; _; _]);
      [reflexivity | repeat constructor; eassumption | eassumption] |].
  step_in H;
    [ injection H as <- _;
      eapply (call_fails _ _ _ [_; _; _; _; _; _]);
      [reflexivity | repeat constructor; eassumption | eassumption] |].
  step_in H;
    [ injection H as <- _;
      eapply (call_fails _ _ _ [_; _; _; _; _; _; _]);
      [reflexivity | repeat constructor; eassumption | eassumption] |].
  rewrite dict_merge_cases in H.
  destruct (process_file_result env (file_info_of file now)) as [rag | tn] eqn:Hobj.
  - step_in H; [| discriminate H]. injection H as <- _.
    eapply log_fails; [repeat constructor; eassumption | eassumption ..].
  - injection H as <- _.
    eapply merge_fails; [repeat constructor; eassumption | eassumption].
Qed.

Definition error_dict (e : exn) : dict := {[ "error" := VStr (str_exn e) ]}.

Lemma upload_file_after_failure env file now st e st1 :
  upload_try env file now st = (Raised e, st1) ->
  upload_file env file now st
  = match raises env (LoggerError ("Upload failed: " +:+ str_exn e)) with
    | None => (Returned (RDict (error_dict e)),
               record_call (LoggerError ("Upload failed: " +:+ str_exn e)) st1)
    | Some e' => (Raised e',
                  record_call (LoggerError ("Upload failed: " +:+ str_exn e)) st1)
    end.
Proof.
  intros Htry. unfold upload_file, upload_try_except.
  unfold mbind at 1, M_bind. erewrite try_except_raised by eassumption.
  unfold upload_except.
  destruct (raises env (LoggerError ("Upload failed: " +:+ str_exn e))) eqn:Hlog.
  - erewrite ext_raises by eassumption. reflexivity.
  - rewrite ext_returns by assumption. reflexivity.
Qed.

Lemma upload_file_after_success env file now st r st' :
  upload_try env file now st = (Returned r, st') ->
  upload_file env file now st = (Returned r, st').
Proof.
  intros Htry. unfold upload_file, upload_try_except.
  unfold mbind at 1, M_bind. erewrite try_except_returned by eassumption.
  reflexivity.
Qed.







(** ** The merged response *)

(** An indexing collaborator whose result carries keys of [file_info]. *)
Definition env_rag_overrides : Env :=
  with_process_file env_ok
    (fun _ => Mapping {[ "filename" := VStr "other.bin"; "size" := VInt 0 ]}).

(** The value of a key in what the handler returned, if it returned a
    dict. *)
Definition returned_field {A} (out : completion A * state) (key : string)
  : option value :=
  match out.1 with
  | Returned (RDict d) => d !! key
  | _ => None
  end.

(** The claim "the merged filename and path are those of the upload
    record" fails: a [filename] in the indexing result replaces the
    stored file name in the response. *)
Lemma merge_overrides_filename :
  let out := upload_file env_rag_overrides notes_txt noon st0 in
  file_info_of notes_txt noon !! "filename"
  = Some (VStr "20240309_120000_notes.txt") /\
  returned_field out "filename" = Some (VStr "other.bin") /\
  returned_field out "filename" <> file_info_of notes_txt noon !! "filename".
Proof. vm_compute. repeat split. discriminate. Qed.

Lemma merge_lookup (rag info : dict) (k : string) :
  (rag ∪ info) !! k
  = match rag !! k with Some v => Some v | None => info !! k end.
Proof.
  destruct (rag !! k) as [v |] eqn:Hk.
  - apply lookup_union_Some_l. exact Hk.
  - apply lookup_union_r. exact Hk.
Qed.

Lemma file_info_filename file now :
  file_info_of file now !! "filename"
  = Some (VStr (stored_filename now (filename file))).
Proof. unfold file_info_of. by simplify_map_eq. Qed.

Lemma file_info_path file now :
  file_info_of file now !! "path"
  = Some (VStr (str_replace "\" "/" (stored_path now (filename file)))).
Proof. unfold file_info_of. by simplify_map_eq. Qed.

Lemma file_info_size file now :
  file_info_of file now !! "size"
  = Some (VInt (Z.of_nat (List.length (content file)))).
Proof. unfold file_info_of. by simplify_map_eq. Qed.

Lemma file_info_type file now :
  file_info_of file now !! "type" = Some (value_of_type (content_type file)).
Proof. unfold file_info_of. by simplify_map_eq. Qed.

(** C4, as the code has it.  The response of a successful upload is
    [{**file_info, **rag_result}]: on every key the indexing result has,
    its value is the one returned; [filename] and [path] are those of the
    upload record exactly when the indexing result has no key of that
    name. *)
Theorem merge_prefers_ingestion_fields
    (env : Env) (file : UploadFile) (now : datetime) (st st' : state) (r : response) :
  upload_try env file now st = (Returned r, st') ->
  exists rag d,
    process_file_result env (file_info_of file now) = Mapping rag /\
    upload_file env file now st = (Returned (RDict d), st') /\
    (forall k, d !! k = match rag !! k with
                        | Some v => Some v
                        | None => file_info_of file now !! k
                        end) /\
    (rag !! "filename" = None ->
     d !! "filename" = Some (VStr (stored_filename now (filename file)))) /\
    (rag !! "path" = None ->
     d !! "path" = Some (VStr (str_replace "\" "/" (stored_path now (filename file))))).
Proof.
  intros Htry.
  destruct (upload_try_returned _ _ _ _ _ _ Htry) as (_ & _ & rag & Hrag & -> & _).
  exists rag, (rag ∪ file_info_of file now).
  split; [exact Hrag |].
  split; [apply upload_file_after_success; exact Htry |].
  split; [intros k; apply merge_lookup |].
  split; intros Hk; rewrite merge_lookup, Hk.
  - apply file_info_filename.
  - apply file_info_path.
Qed.

Lemma env_ok_upload_calls file now :
  Forall (fun c => raises env_ok c = None) (upload_calls file now).
Proof. repeat constructor. Qed.

Lemma merge_prefers_ingestion_fields_witness :
  exists rag d,
    process_file_result env_ok (file_info_of notes_txt noon) = Mapping rag /\
    upload_file env_ok notes_txt noon st0
    = (Returned (RDict d),
       mk_state (files_after_write notes_txt noon ∅)
         (upload_calls notes_txt noon ++ [upload_log_call notes_txt])) /\
    (forall k, d !! k = match rag !! k with
                        | Some v => Some v
                        | None => file_info_of notes_txt noon !! k
                        end) /\
    (rag !! "filename" = None ->
     d !! "filename" = Some (VStr (stored_filename noon (filename notes_txt)))) /\
    (rag !! "path" = None ->
     d !! "path"
     = Some (VStr (str_replace "\" "/" (stored_path noon (filename notes_txt))))).
Proof.
  exact (merge_prefers_ingestion_fields env_ok notes_txt noon st0 _ _
           (upload_try_returns env_ok notes_txt noon st0
              {[ "index_id" := VStr "idx-1" ]}
              (env_ok_upload_calls notes_txt noon) eq_refl eq_refl)).
Defined.

(** ** Round trip of an upload *)

Definition backslash_txt : UploadFile :=
  {| filename := "a\b.txt";
     content_type := Some "text/plain";
     content := [x68; x69] |}.

(** The file a returned [path] names, if the handler returned a dict with
    a string under [path]. *)
Definition file_at_returned_path {A} (out : completion A * state)
  : option (list byte) :=
  match returned_field out "path" with
  | Some (VStr p) => files out.2 !! p
  | _ => None
  end.

(** The claim "the response has [size == S] and its [path] names a file
    holding the bytes sent" fails twice: a [size] in the indexing result
    replaces the size of the upload, and a backslash in the original name
    is replaced by a slash in the returned [path] only, which then names
    no file. *)
Lemma round_trip_broken_by_merge_and_backslash :
  (let out := upload_file env_rag_overrides notes_txt noon st0 in
   List.length (content notes_txt) = 2%nat /\
   returned_field out "size" = Some (VInt 0)) /\
  (let out := upload_file env_ok backslash_txt noon st0 in
   returned_field out "path" = Some (VStr "uploads/20240309_120000_a/b.txt") /\
   file_at_returned_path out = None /\
   files out.2 !! "uploads/20240309_120000_a\b.txt" = Some (content backslash_txt)).
Proof. vm_compute. repeat split. Qed.

Lemma str_replace_absent (a b : ascii) (s : string) :
  str_mem a s = false -> str_replace a b s = s.
Proof.
  induction s as [| c s IH]; simpl; [reflexivity |].
  destruct (Ascii.eqb c a); simpl; [discriminate |].
  intros H. rewrite IH by exact H. reflexivity.
Qed.

(** C6, as the code has it.  After a successful upload the bytes sent are
    the content of the file at [str(UPLOAD_DIR / filename)].  The response
    has [size] equal to their number and [type] equal to the declared MIME
    type unless the indexing result has a key of that name; its [path] is
    the location of the file when, besides, that location contains no
    backslash. *)
Theorem upload_round_trip
    (env : Env) (file : UploadFile) (now : datetime) (st st' : state) (r : response) :
  upload_try env file now st = (Returned r, st') ->
  exists rag d,
    process_file_result env (file_info_of file now) = Mapping rag /\
    upload_file env file now st = (Returned (RDict d), st') /\
    files st' !! stored_path now (filename file) = Some (content file) /\
    (rag !! "size" = None ->
     d !! "size" = Some (VInt (Z.of_nat (List.length (content file))))) /\
    (rag !! "type" = None ->
     d !! "type" = Some (value_of_type (content_type file))) /\
    (rag !! "path" = None ->
     str_mem "\" (stored_path now (filename file)) = false ->
     d !! "path" = Some (VStr (stored_path now (filename file)))).
Proof.
  intros Htry.
  destruct (upload_try_returned _ _ _ _ _ _ Htry)
    as (_ & _ & rag & Hrag & -> & Hfiles & _).
  exists rag, (rag ∪ file_info_of file now).
  split; [exact Hrag |].
  split; [apply upload_file_after_success; exact Htry |].
  split; [rewrite Hfiles; apply lookup_insert_eq |].
  repeat split; intros Hk; rewrite merge_lookup, Hk.
  - apply file_info_size.
  - apply file_info_type.
  - intros Hclean. rewrite file_info_path, str_replace_absent by exact Hclean.
    reflexivity.
Qed.

Lemma upload_round_trip_witness :
  exists rag d,
    process_file_result env_ok (file_info_of notes_txt noon) = Mapping rag /\
    upload_file env_ok notes_txt noon st0
    = (Returned (RDict d),
       mk_state (files_after_write notes_txt noon ∅)
         (upload_calls notes_txt noon ++ [upload_log_call notes_txt])) /\
    files_after_write notes_txt noon ∅ !! stored_path noon "notes.txt"
    = Some [x68; x69] /\
    (rag !! "size" = None -> d !! "size" = Some (VInt 2)) /\
    (rag !! "type" = None -> d !! "type" = Some (VStr "text/plain")) /\
    (rag !! "path" = None ->
     str_mem "\" (stored_path noon "notes.txt") = false ->
     d !! "path" = Some (VStr (stored_path noon "notes.txt"))).
Proof.
  exact (upload_round_trip env_ok notes_txt noon st0 _ _
           (upload_try_returns env_ok notes_txt noon st0
              {[ "index_id" := VStr "idx-1" ]}
              (env_ok_upload_calls notes_txt noon) eq_refl eq_refl)).
Defined.

(** ** Failures of the logging sink *)

Definition is_logging (c : call) : bool :=
  match c with
  | LoggerInfo _ | LoggerError _ | LogStructured _ _ => true
  | _ => false
  end.

(** [env], had every call of the logging sink returned. *)
Definition with_working_logging (env : Env) : Env :=
  with_raises env (fun c => if is_logging c then None else raises env c).

Definition sink_down : exn := PyExc "ConnectionError" "log sink unavailable".

(** Only [log_structured] fails. *)
Definition env_log_structured_down : Env :=
  with_raises env_ok
    (fun c => match c with LogStructured _ _ => Some sink_down | _ => None end).

(** The factory fails, and so does [logger.error]. *)
Definition env_no_backend_no_logger : Env :=
  with_raises env_ok
    (fun c => match c with
              | CreateChatService => Some no_api_key
              | LoggerError _ => Some sink_down
              | _ => None
              end).

(** The claim "a failure of the logging sink never changes the outcome
    and never replaces the primary error" fails: with [log_structured]
    down, /chat answers 500 where it would have streamed and /upload
    reports an error for a file it has stored; with [logger.error] down,
    the error of the factory is replaced by the one of the logger. *)
Lemma logging_failure_changes_response :
  (respond (chat_endpoint env_log_structured_down hello st0).1
   = mk_response 500 (BodyJson {[ "detail" := VStr "log sink unavailable" ]}) /\
   respond (chat_endpoint (with_working_logging env_log_structured_down) hello st0).1
   = mk_response 200 (BodyStream sample_stream "text/event-stream")) /\
  (let out := upload_file env_log_structured_down notes_txt noon st0 in
   respond out.1
   = mk_response 200 (BodyJson {[ "error" := VStr "log sink unavailable" ]}) /\
   files out.2 !! "uploads/20240309_120000_notes.txt" = Some (content notes_txt) /\
   returned_field
     (upload_file (with_working_logging env_log_structured_down) notes_txt noon st0)
     "error" = None) /\
  (respond (chat_endpoint env_no_backend_no_logger hello st0).1
   = mk_response 500 (BodyText "Internal Server Error") /\
   respond (chat_endpoint (with_working_logging env_no_backend_no_logger) hello st0).1
   = mk_response 500 (BodyJson {[ "detail" := VStr "missing API key" ]})).
Proof. vm_compute. repeat split. Qed.

Lemma preview_payload_bind {B} (msgs : list message) (m : message) (c : string)
    (k : dict -> M B) (st : state) :
  last msgs = Some m ->
  m !! "content" = Some c ->
  (preview_payload msgs ≫= k) st
  = k {[ "message_count" := VInt (Z.of_nat (List.length msgs));
         "last_message" := VStr (str_prefix 100 c +:+ "...") ]} st.
Proof.
  intros Hlast Hc.
  unfold preview_payload, getitem_last, getitem, mbind, M_bind, mret, M_ret.
  rewrite Hlast, Hc. reflexivity.
Qed.

(** C9, as the code has it.  A failure of the logging sink is an exception
    like any other.  Raised by [logger.info] or [log_structured] inside a
    [try] block it is caught by the handler: /chat and /reason raise
    [HTTPException(500, str(e))], /upload returns [{"error": str(e)}]
    although the file is stored.  Raised by [logger.error] inside an
    [except] block it leaves the handler in place of the error being
    handled. *)
Theorem logging_failure_is_handled_as_failure (env : Env) (st : state) :
  (forall r request e,
     raises env (LoggerInfo (info_message r)) = Some e ->
     raises env (LoggerError (error_prefix r +:+ str_exn e)) = None ->
     (llm_handler env r request st).1 = Raised (HTTPException 500 (str_exn e))) /\
  (forall r request m c e,
     raises env (LoggerInfo (info_message r)) = None ->
     raises env (create_call r) = None ->
     last (messages request) = Some m ->
     m !! "content" = Some c ->
     raises env (LogStructured (log_event r)
                   {[ "message_count" := VInt (Z.of_nat (List.length (messages request)));
                      "last_message" := VStr (str_prefix 100 c +:+ "...") ]}) = Some e ->
     raises env (LoggerError (error_prefix r +:+ str_exn e)) = None ->
     (llm_handler env r request st).1 = Raised (HTTPException 500 (str_exn e))) /\
  (forall file now rag e,
     Forall (fun c => raises env c = None) (upload_calls file now) ->
     process_file_result env (file_info_of file now) = Mapping rag ->
     raises env (upload_log_call file) = Some e ->
     raises env (LoggerError ("Upload failed: " +:+ str_exn e)) = None ->
     let out := upload_file env file now st in
     out.1 = Returned (RDict {[ "error" := VStr (str_exn e) ]}) /\
     files out.2 !! stored_path now (filename file) = Some (content file)) /\
  (forall r request e e',
     raises env (LoggerInfo (info_message r)) = None ->
     raises env (create_call r) = Some e ->
     raises env (LoggerError (error_prefix r +:+ str_exn e)) = Some e' ->
     (llm_handler env r request st).1 = Raised e') /\
  (forall file now e e',
     ingestion_failure env file now e ->
     raises env (LoggerError ("Upload failed: " +:+ str_exn e)) = Some e' ->
     (upload_file env file now st).1 = Raised e').
Proof.
  split; [| split; [| split; [| split]]].
  - intros r request e Hinfo Hlog. rewrite llm_handler_unfold.
    erewrite try_except_raised; [| erewrite ext_raises by eassumption; reflexivity].
    rewrite llm_except_logged by assumption. reflexivity.
  - intros r request m c e Hinfo Hcreate Hlast Hc Hrec Hlog.
    rewrite llm_handler_unfold.
    erewrite try_except_raised;
      [| do 2 run_step; erewrite preview_payload_bind by eassumption;
         run_step; reflexivity].
    rewrite llm_except_logged by assumption. reflexivity.
  - intros file now rag e Hcalls Hrag Hrec Hlog out.
    assert (Htry : upload_try env file now st
                   = (Raised e,
                      mk_state (files_after_write file now (files st))
                        (trace st ++ upload_calls file now ++ [upload_log_call file]))).
    { unfold upload_calls in *. split_calls Hcalls. unfold upload_try.
      repeat run_step. unfold dict_merge. rewrite Hrag. rewrite ret_bind.
      unfold upload_log_call in Hrec. run_step.
      unfold files_after_write, record_call. simpl. rewrite <- !app_assoc.
      reflexivity. }
    subst out. rewrite (upload_file_after_failure _ _ _ _ _ _ Htry), Hlog.
    split; [reflexivity |]. simpl.
    unfold files_after_write. apply lookup_insert_eq.
  - intros r request e e' Hinfo Hcreate Hlog. rewrite llm_handler_unfold.
    erewrite try_except_raised; [| do 2 run_step; reflexivity].
    run_step. reflexivity.
  - intros file now e e' Hfail Hlog.
    destruct (ingestion_failure_raises env file now e st Hfail) as [st1 Htry].
    rewrite (upload_file_after_failure _ _ _ _ _ _ Htry), Hlog. reflexivity.
Qed.

Lemma logging_failure_is_handled_as_failure_witness :
  (chat_endpoint env_log_structured_down hello st0).1
  = Raised (HTTPException 500 "log sink unavailable") /\
  (let out := upload_file env_log_structured_down notes_txt noon st0 in
   out.1 = Returned (RDict {[ "error" := VStr "log sink unavailable" ]}) /\
   files out.2 !! stored_path noon "notes.txt" = Some [x68; x69]) /\
  (chat_endpoint env_no_backend_no_logger hello st0).1 = Raised sink_down.
Proof.
  destruct (logging_failure_is_handled_as_failure env_log_structured_down st0)
    as (_ & Hrec & Hup & _).
  destruct (logging_failure_is_handled_as_failure env_no_backend_no_logger st0)
    as (_ & _ & _ & Hmask & _).
  split; [| split].
  - exact (Hrec ChatRoute hello {[ "role" := "user"; "content" := "hello" ]} "hello"
             sink_down eq_refl eq_refl eq_refl eq_refl eq_refl eq_refl).
  - apply (Hup notes_txt noon {[ "index_id" := VStr "idx-1" ]} sink_down).
    + repeat constructor.
    + reflexivity.
    + reflexivity.
    + reflexivity.
  - exact (Hmask ChatRoute hello no_api_key sink_down eq_refl eq_refl eq_refl).
Defined.

(** * Further properties of the handlers *)

(** ** The routes through the factory, path by path *)

(** The [try] block and the [except] block of /chat and /reason. *)
Definition llm_try (env : Env) (r : llm_route) (request : ChatMessage) : M unit :=
  ext env (LoggerInfo (info_message r));;
  ext env (create_call r);;
  payload ← preview_payload (messages request);
  ext env (LogStructured (log_event r) payload);;
  ext env (generate_call r (messages request));;
  return_ (StreamingResponse (backend_stream env r (messages request))
                             "text/event-stream").

Definition llm_except (env : Env) (r : llm_route) (e : exn) : M unit :=
  ext env (LoggerError (error_prefix r +:+ str_exn e));;
  raise (HTTPException 500 (str_exn e)).

Lemma llm_handler_blocks env r request :
  llm_handler env r request = try_except (llm_try env r request) (llm_except env r).
Proof. destruct r; reflexivity. Qed.

(** The payload logged for a request whose last message has a content. *)
Definition preview_of (msgs : list message) (c : string) : dict :=
  {[ "message_count" := VInt (Z.of_nat (List.length msgs));
     "last_message" := VStr (str_prefix 100 c +:+ "...") ]}.

(** The [try] block ends in [return] of the stream or raises. *)
Lemma llm_try_completion env r request st c st' :
  llm_try env r request st = (c, st') ->
  c = Returned (StreamingResponse (backend_stream env r (messages request))
                                  "text/event-stream") \/
  exists e, c = Raised e.
Proof.
  unfold llm_try. intros H.
  step_in H; [injection H as <- _; eauto |].
  step_in H; [injection H as <- _; eauto |].
  rewrite preview_payload_cases in H.
  destruct (last (messages request)) as [m |]; [| injection H as <- _; eauto].
  destruct (m !! "content") as [t |]; [| injection H as <- _; eauto].
  step_in H; [injection H as <- _; eauto |].
  step_in H; [injection H as <- _; eauto |].
  injection H as <- _. auto.
Qed.

(** X1. With every collaborator working and a last message that has a
    content, /chat and /reason make four calls, in this order: the info
    record, the factory, the structured record with the preview, and
    [generate_stream] on the whole message sequence; they return the
    streaming response over what that call produced. *)
Theorem llm_handler_streams
    (env : Env) (r : llm_route) (request : ChatMessage) (st : state)
    (m : message) (c : string) :
  last (messages request) = Some m ->
  m !! "content" = Some c ->
  raises env (LoggerInfo (info_message r)) = None ->
  raises env (create_call r) = None ->
  raises env (LogStructured (log_event r) (preview_of (messages request) c)) = None ->
  raises env (generate_call r (messages request)) = None ->
  llm_handler env r request st
  = (Returned (StreamingResponse (backend_stream env r (messages request))
                                 "text/event-stream"),
     mk_state (files st)
       (trace st ++ [LoggerInfo (info_message r); create_call r;
                     LogStructured (log_event r) (preview_of (messages request) c);
                     generate_call r (messages request)])).
Proof.
  intros Hlast Hc Hinfo Hcreate Hrec Hgen. unfold preview_of in Hrec.
  rewrite llm_handler_blocks.
  erewrite try_except_returned; [reflexivity |].
  unfold llm_try. do 2 run_step.
  erewrite preview_payload_bind by eassumption.
  do 2 run_step. unfold preview_of. same_trace.
Qed.

Lemma llm_handler_streams_witness :
  reason_endpoint env_ok hello st0
  = (Returned (StreamingResponse sample_stream "text/event-stream"),
     mk_state ∅
       [LoggerInfo "Processing reasoning request"; CreateReasonerService;
        LogStructured "reason_request" (preview_of (messages hello) "hello");
        ReasonerGenerateStream (messages hello)]).
Proof.
  exact (llm_handler_streams env_ok ReasonRoute hello st0
           {[ "role" := "user"; "content" := "hello" ]} "hello"
           eq_refl eq_refl eq_refl eq_refl eq_refl eq_refl).
Defined.

(** X2. /chat and /reason have two outcomes only.  Either the handler
    returns the streaming response over its backend's sequence, or its
    [try] block raised some [e]; then ["<prefix>" + str(e)] is logged
    and [HTTPException(500, str(e))] is raised, whatever the class of [e],
    unless the log call itself raises.  The handler never returns another
    value and never runs to its end. *)
Theorem llm_handler_outcomes
    (env : Env) (r : llm_route) (request : ChatMessage) (st : state) :
  (exists st',
     llm_handler env r request st
     = (Returned (StreamingResponse (backend_stream env r (messages request))
                                    "text/event-stream"), st')) \/
  (exists e st1,
     llm_try env r request st = (Raised e, st1) /\
     llm_handler env r request st
     = (match raises env (LoggerError (error_prefix r +:+ str_exn e)) with
        | None => Raised (HTTPException 500 (str_exn e))
        | Some e' => Raised e'
        end,
        record_call (LoggerError (error_prefix r +:+ str_exn e)) st1)).
Proof.
  rewrite llm_handler_blocks.
  destruct (llm_try env r request st) as [c st1] eqn:Htry.
  destruct (llm_try_completion _ _ _ _ _ _ Htry) as [-> | [e ->]].
  - left. exists st1. apply try_except_returned. exact Htry.
  - right. exists e, st1. split; [reflexivity |].
    erewrite try_except_raised by exact Htry.
    unfold llm_except. rewrite ext_bind_cases.
    destruct (raises env _); reflexivity.
Qed.

(** X3. A last message without a [content] key: the service has been
    built by then, the [KeyError] is caught, and the answer is a 500 whose
    detail is the quoted key; [generate_stream] is not called. *)
Theorem llm_missing_content_is_500
    (env : Env) (r : llm_route) (request : ChatMessage) (st : state) (m : message) :
  last (messages request) = Some m ->
  m !! "content" = None ->
  raises env (LoggerInfo (info_message r)) = None ->
  raises env (create_call r) = None ->
  raises env (LoggerError (error_prefix r +:+ "'content'")) = None ->
  llm_handler env r request st
  = (Raised (HTTPException 500 "'content'"),
     mk_state (files st)
       (trace st ++ [LoggerInfo (info_message r); create_call r;
                     LoggerError (error_prefix r +:+ "'content'")])).
Proof.
  intros Hlast Hc Hinfo Hcreate Hlog. rewrite llm_handler_blocks.
  assert (Htry : llm_try env r request st
                 = (Raised (PyExc "KeyError" "'content'"),
                    record_call (create_call r)
                      (record_call (LoggerInfo (info_message r)) st))).
  { unfold llm_try. do 2 run_step. rewrite preview_payload_cases, Hlast, Hc.
    reflexivity. }
  erewrite try_except_raised by exact Htry.
  unfold llm_except. simpl str_exn. run_step. same_trace.
Qed.

Definition role_only : ChatMessage :=
  {| messages := [ {[ "role" := "user" ]} ] |}.

Lemma llm_missing_content_is_500_witness :
  chat_endpoint env_ok role_only st0
  = (Raised (HTTPException 500 "'content'"),
     mk_state ∅ [LoggerInfo "Processing chat request"; CreateChatService;
                 LoggerError "Chat error: 'content'"]).
Proof.
  exact (llm_missing_content_is_500 env_ok ChatRoute role_only st0
           {[ "role" := "user" ]} eq_refl eq_refl eq_refl eq_refl eq_refl).
Defined.

(** ** The logged preview *)

Lemma str_prefix_length (n : nat) (s : string) :
  String.length (str_prefix n s) = Nat.min n (String.length s).
Proof.
  unfold str_prefix. revert s.
  induction n as [| n IH]; intros s; destruct s as [| c s]; simpl; try reflexivity.
  rewrite IH. reflexivity.
Qed.

Lemma str_prefix_short (n : nat) (s : string) :
  (String.length s <= n)%nat -> str_prefix n s = s.
Proof.
  unfold str_prefix. revert s.
  induction n as [| n IH]; intros s; destruct s as [| c s]; simpl;
    intros H; try reflexivity; try lia.
  rewrite IH by lia. reflexivity.
Qed.

Lemma str_prefix_split (n : nat) (s : string) :
  exists rest, s = str_prefix n s +:+ rest.
Proof.
  unfold str_prefix. revert s.
  induction n as [| n IH]; intros s; destruct s as [| c s]; simpl.
  - exists "". reflexivity.
  - exists (String c s). reflexivity.
  - exists "". reflexivity.
  - destruct (IH s) as [rest Hrest]. exists rest.
    change (String c s = String c (String.substring 0 n s +:+ rest)).
    rewrite <- Hrest. reflexivity.
Qed.

Lemma str_app_length (a b : string) :
  String.length (a +:+ b) = (String.length a + String.length b)%nat.
Proof. induction a as [| c a IH]; simpl; [reflexivity | rewrite IH; reflexivity]. Qed.

(** X4. The preview written to the structured log is a bounded digest of
    the request: the number of messages, and the first hundred characters
    of the last message's content followed by three dots, so at most 103
    characters, whatever the length of the content; the dots are appended
    to short contents as well. *)
Theorem preview_is_bounded (msgs : list message) (m : message) (c : string)
    (st : state) :
  last msgs = Some m ->
  m !! "content" = Some c ->
  exists p,
    preview_payload msgs st
    = (Normal ({[ "message_count" := VInt (Z.of_nat (List.length msgs));
                  "last_message" := VStr p ]} : dict), st) /\
    String.length p = (Nat.min 100 (String.length c) + 3)%nat /\
    (String.length p <= 103)%nat /\
    (exists rest, c = str_prefix 100 c +:+ rest /\ p = str_prefix 100 c +:+ "...") /\
    ((String.length c <= 100)%nat -> p = c +:+ "...").
Proof.
  intros Hlast Hc. exists (str_prefix 100 c +:+ "...").
  split.
  { unfold preview_payload, getitem_last, getitem, mbind, M_bind, mret, M_ret.
    rewrite Hlast, Hc. reflexivity. }
  assert (Hlen : String.length (str_prefix 100 c +:+ "...")
                 = (Nat.min 100 (String.length c) + 3)%nat).
  { rewrite str_app_length, str_prefix_length. reflexivity. }
  split; [exact Hlen |]. split; [lia |]. split.
  - destruct (str_prefix_split 100 c) as [rest Hrest]. exists rest. auto.
  - intros Hshort. rewrite str_prefix_short by exact Hshort. reflexivity.
Qed.

Lemma preview_is_bounded_witness :
  exists p,
    preview_payload (messages hello) st0
    = (Normal ({[ "message_count" := VInt 1; "last_message" := VStr p ]} : dict), st0) /\
    String.length p = 8%nat /\
    (String.length p <= 103)%nat /\
    (exists rest, "hello" = str_prefix 100 "hello" +:+ rest /\
                  p = str_prefix 100 "hello" +:+ "...") /\
    ((String.length "hello" <= 100)%nat -> p = "hello...").
Proof.
  exact (preview_is_bounded (messages hello)
           {[ "role" := "user"; "content" := "hello" ]} "hello" st0
           eq_refl eq_refl).
Defined.

(** ** The routes that build their service themselves *)

(** X5. /search and /chat-rag leave the handler in two ways only: the
    streaming response over the sequence of their service, or
    [HTTPException] with status 500.  Their [except] blocks make no call,
    so no other exception and no other status comes out of them. *)
Theorem direct_routes_outcomes (env : Env) (st : state) :
  (forall request,
     (exists q st',
        search_endpoint env request st
        = (Returned (StreamingResponse (search_stream env q) "text/event-stream"),
           st')) \/
     (exists detail st',
        search_endpoint env request st = (Raised (HTTPException 500 detail), st'))) /\
  (forall request,
     (exists st',
        rag_chat_endpoint env request st
        = (Returned (StreamingResponse
                       (rag_chat_stream env (rag_messages request) (index_id request))
                       "text/event-stream"), st')) \/
     (exists detail st',
        rag_chat_endpoint env request st = (Raised (HTTPException 500 detail), st'))).
Proof.
  split; intros request.
  - unfold search_endpoint, try_except. rewrite ext_bind_cases.
    destruct (raises env NewSearchService) as [e |]; [right; eauto |].
    unfold getitem_first.
    destruct (messages request) as [| first rest]; [right; eauto |].
    rewrite ret_bind.
    destruct (first !! "content") as [q |] eqn:Hq.
    + erewrite getitem_found by exact Hq. rewrite ext_bind_cases.
      destruct (raises env (SearchGenerateStream q)) as [e |].
      * right; eauto.
      * left; eauto.
    + rewrite getitem_missing by exact Hq. right; eauto.
  - unfold rag_chat_endpoint, try_except. rewrite ext_bind_cases.
    destruct (raises env NewRAGChatService) as [e |]; [right; eauto |].
    rewrite ext_bind_cases.
    destruct (raises env (RAGChatGenerateStream _ _)) as [e |].
    + right; eauto.
    + left; eauto.
Qed.

(** X6. /search on a first message without a [content] key: the search
    service has been built, [generate_stream] is not called, and the
    answer is a 500 whose detail is the quoted key. *)
Theorem search_missing_content_is_500
    (env : Env) (st : state) (first : message) (rest : list message) :
  first !! "content" = None ->
  raises env NewSearchService = None ->
  search_endpoint env {| messages := first :: rest |} st
  = (Raised (HTTPException 500 "'content'"), record_call NewSearchService st).
Proof.
  intros Hq Hnew. unfold search_endpoint, try_except. run_step.
  unfold getitem_first, messages. rewrite ret_bind.
  rewrite getitem_missing by exact Hq. reflexivity.
Qed.

Lemma search_missing_content_is_500_witness :
  search_endpoint env_ok role_only st0
  = (Raised (HTTPException 500 "'content'"), record_call NewSearchService st0).
Proof.
  exact (search_missing_content_is_500 env_ok st0 {[ "role" := "user" ]} []
           eq_refl eq_refl).
Defined.

(** X7. /chat-rag hands the message sequence and the index id to
    [generate_stream] as they came.  A failure to build the service, or a
    failure of that call (an unknown index, say), is answered by a 500
    carrying the message of the exception; in the first case
    [generate_stream] is not called. *)
Theorem rag_chat_failure_is_500
    (env : Env) (request : RAGChatRequest) (st : state) (e : exn) :
  (raises env NewRAGChatService = Some e ->
   rag_chat_endpoint env request st
   = (Raised (HTTPException 500 (str_exn e)), record_call NewRAGChatService st)) /\
  (raises env NewRAGChatService = None ->
   raises env (RAGChatGenerateStream (rag_messages request) (index_id request))
   = Some e ->
   rag_chat_endpoint env request st
   = (Raised (HTTPException 500 (str_exn e)),
      mk_state (files st)
        (trace st ++ [NewRAGChatService;
                      RAGChatGenerateStream (rag_messages request) (index_id request)]))).
Proof.
  split.
  - intros Hnew. unfold rag_chat_endpoint, try_except. run_step. reflexivity.
  - intros Hnew Hgen. unfold rag_chat_endpoint, try_except. do 2 run_step.
    same_trace.
Qed.

Definition unknown_index : exn := PyExc "FileNotFoundError" "no index idx-404".

Definition env_unknown_index : Env :=
  with_raises env_ok
    (fun c => match c with
              | RAGChatGenerateStream _ "idx-404" => Some unknown_index
              | _ => None
              end).

Lemma rag_chat_failure_is_500_witness :
  rag_chat_endpoint env_unknown_index
    {| rag_messages := messages hello; index_id := "idx-404" |} st0
  = (Raised (HTTPException 500 "no index idx-404"),
     mk_state ∅ [NewRAGChatService;
                 RAGChatGenerateStream (messages hello) "idx-404"]).
Proof.
  exact (proj2 (rag_chat_failure_is_500 env_unknown_index
                  {| rag_messages := messages hello; index_id := "idx-404" |}
                  st0 unknown_index) eq_refl eq_refl).
Defined.

(** ** Which files a handler writes *)

(** [m] changes no file outside [P]. *)
Definition touches {A} (P : string -> Prop) (m : M A) : Prop :=
  forall st p, ~ P p -> files (m st).2 !! p = files st !! p.

Section Frame.

Context (env : Env) (P : string -> Prop).

Lemma touches_ret {A} (a : A) : touches P (mret a : M A).
Proof. intros st p _. reflexivity. Qed.

Lemma touches_raise {A} (e : exn) : touches P (raise e : M A).
Proof. intros st p _. reflexivity. Qed.

Lemma touches_return {A} (r : response) : touches P (return_ r : M A).
Proof. intros st p _. reflexivity. Qed.

Lemma touches_ext (c : call) : touches P (ext env c).
Proof. intros st p _. unfold ext. destruct (raises env c); reflexivity. Qed.

Lemma touches_store path data : P path -> touches P (store path data).
Proof.
  intros Hpath st p Hp. unfold store. simpl.
  apply lookup_insert_ne. intros ->. exact (Hp Hpath).
Qed.

Lemma touches_bind {A B} (m : M A) (k : A -> M B) :
  touches P m -> (forall a, touches P (k a)) -> touches P (m ≫= k).
Proof.
  intros Hm Hk st p Hp. unfold mbind, M_bind.
  specialize (Hm st p Hp).
  destruct (m st) as [[a | r | e] st1]; simpl in *; try exact Hm.
  rewrite (Hk a st1 p Hp). exact Hm.
Qed.

Lemma touches_try_except {A} (body : M A) (h : exn -> M A) :
  touches P body -> (forall e, touches P (h e)) -> touches P (try_except body h).
Proof.
  intros Hb Hh st p Hp. unfold try_except.
  specialize (Hb st p Hp).
  destruct (body st) as [[a | r | e] st1]; simpl in *; try exact Hb.
  rewrite (Hh e st1 p Hp). exact Hb.
Qed.

Lemma touches_getitem_last {A} (l : list A) : touches P (getitem_last l).
Proof. unfold getitem_last. destruct (last l); [apply touches_ret | apply touches_raise]. Qed.

Lemma touches_getitem_first {A} (l : list A) : touches P (getitem_first l).
Proof. unfold getitem_first. destruct l; [apply touches_raise | apply touches_ret]. Qed.

Lemma touches_getitem (m : message) (key : string) : touches P (getitem m key).
Proof. unfold getitem. destruct (m !! key); [apply touches_ret | apply touches_raise]. Qed.

Lemma touches_dict_merge (a : dict) (b : pyobj) : touches P (dict_merge a b).
Proof. unfold dict_merge. destruct b; [apply touches_ret | apply touches_raise]. Qed.

End Frame.

(** Walks through the statements of a handler. *)
Ltac frame :=
  repeat first
    [ apply touches_bind; [| intros ?]
    | apply touches_try_except; [| intros ?]
    | apply touches_ext
    | apply touches_ret
    | apply touches_raise
    | apply touches_return
    | apply touches_getitem_last
    | apply touches_getitem_first
    | apply touches_getitem
    | apply touches_dict_merge
    | apply touches_store; exact eq_refl
    | progress cbv zeta ].



Lemma upload_file_touches env file now :
  touches (fun q => q = stored_path now (filename file)) (upload_file env file now).
Proof.
  unfold upload_file, upload_try_except, upload_try, upload_except. frame.
Qed.


Definition st_with_report : state :=
  mk_state {[ "uploads/20240101_000000_report.pdf" := [x25; x50] ]} [].


(** X10. No file is created or truncated unless the body of the upload
    was read and the file could be opened: when [file.read()] or [open]
    raises, the files are what they were. *)
Theorem failed_read_or_open_writes_nothing
    (env : Env) (file : UploadFile) (now : datetime) (st : state) :
  raises env FileRead <> None \/
  raises env (OpenWb (stored_path now (filename file))) <> None ->
  files (upload_file env file now st).2 = files st.
Proof.
  intros Hfail.
  assert (Htry : exists c st1, upload_try env file now st = (c, st1) /\
                               (exists e, c = Raised e) /\ files st1 = files st).
  { unfold upload_try.
    rewrite ext_bind_cases. destruct (raises env (LoggerInfo _)); [eauto 6 |].
    rewrite ext_bind_cases. destruct (raises env (Mkdir _)); [eauto 6 |].
    rewrite ext_bind_cases. destruct (raises env FileRead); [eauto 6 |].
    rewrite ext_bind_cases.
    destruct (raises env (OpenWb _)); [eauto 6 |].
    exfalso. destruct Hfail as [H | H]; apply H; reflexivity. }
  destruct Htry as (c & st1 & Htry & [e ->] & Hfiles).
  rewrite (upload_file_after_failure _ _ _ _ _ _ Htry).
  destruct (raises env (LoggerError _)); exact Hfiles.
Qed.

Definition env_cannot_open : Env :=
  with_raises env_ok
    (fun c => match c with
              | OpenWb _ => Some (PyExc "PermissionError" "[Errno 13] Permission denied")
              | _ => None
              end).

Lemma failed_read_or_open_writes_nothing_witness :
  files (upload_file env_cannot_open notes_txt noon st_with_report).2
  = files st_with_report.
Proof.
  apply (failed_read_or_open_writes_nothing env_cannot_open notes_txt noon
           st_with_report).
  right. discriminate.
Defined.

(** ** Where an upload is stored *)

Lemma str_split_absent (sep : ascii) (s : string) :
  str_mem sep s = false -> str_split sep s = [s].
Proof.
  induction s as [| c s IH]; simpl; [reflexivity |].
  destruct (Ascii.eqb c sep); simpl; [discriminate |].
  intros H. rewrite IH by exact H. reflexivity.
Qed.

Lemma digit_not_slash (n : Z) : 0 <= n < 10 -> Ascii.eqb (digit n) "/" = false.
Proof.
  intros H. unfold digit.
  assert (Hk : Z.to_nat (48 + n) = (48 + Z.to_nat n)%nat) by lia.
  rewrite Hk. clear Hk.
  assert (Hb : (Z.to_nat n < 10)%nat) by lia.
  revert Hb. generalize (Z.to_nat n). intros k Hb.
  do 10 (destruct k as [| k]; [reflexivity |]). lia.
Qed.

Lemma posix_join_relative (a : string) (c : ascii) (s : string) :
  Ascii.eqb c "/" = false ->
  posix_join a (String c s) = a +:+ "/" +:+ String c s.
Proof.
  intros H. unfold posix_join.
  destruct c as [[] [] [] [] [] [] [] []]; try reflexivity. discriminate H.
Qed.

(** [UPLOAD_DIR / key] for a key of one component. *)
Lemma path_div_one_component (c c' : ascii) (s : string) :
  str_mem "/" (String c (String c' s)) = false ->
  path_div UPLOAD_DIR (String c (String c' s))
  = "uploads/" +:+ String c (String c' s).
Proof.
  intros Hmem.
  assert (Hc : Ascii.eqb c "/" = false).
  { simpl in Hmem. apply orb_false_iff in Hmem. tauto. }
  unfold path_div. rewrite posix_join_relative by exact Hc.
  set (key := String c (String c' s)) in *.
  assert (Hsplit : str_split "/" (UPLOAD_DIR +:+ "/" +:+ key) = ["uploads"; key]).
  { change (str_split "/" (UPLOAD_DIR +:+ "/" +:+ key))
      with ("uploads" :: str_split "/" key).
    rewrite (str_split_absent _ _ Hmem). reflexivity. }
  assert (Hkeep : keeps_part key = true).
  { unfold keeps_part, key. simpl. destruct (Ascii.eqb c "."); reflexivity. }
  unfold path_str. rewrite Hsplit.
  change (List.filter keeps_part ["uploads"; key])
    with ("uploads" :: if keeps_part key then [key] else []).
  rewrite Hkeep. reflexivity.
Qed.

Lemma stored_filename_no_slash now name :
  field_ranges now -> str_mem "/" name = false ->
  str_mem "/" (stored_filename now name) = false.
Proof.
  intros [] Hname. rewrite stored_filename_unfold.
  unfold strftime_then, pad4, pad2. cbn [str_mem String.append].
  rewrite !digit_not_slash by div_bounds. exact Hname.
Qed.

Lemma stored_path_plain_name (now : datetime) (name : string) :
  clock_datetime now = true ->
  str_mem "/" name = false ->
  stored_path now name = "uploads/" +:+ stored_filename now name.
Proof.
  intros Hclock Hname. apply clock_datetime_ranges in Hclock.
  pose proof (stored_filename_no_slash now name Hclock Hname) as Hmem.
  unfold stored_path. revert Hmem. rewrite stored_filename_unfold.
  unfold strftime_then, pad4. unfold pad2 at 1.
  apply path_div_one_component.
Qed.

(** X11. For an original name without a slash the file is written at
    [uploads/<timestamp>_<name>]: the directory, a slash, and the
    [filename] of the upload record; that location contains the name
    unchanged and no further slash. *)
Theorem stored_path_of_plain_name (now : datetime) (name : string) :
  clock_datetime now = true ->
  str_mem "/" name = false ->
  stored_path now name = "uploads/" +:+ strftime now +:+ "_" +:+ name /\
  str_mem "/" (stored_filename now name) = false.
Proof.
  intros Hclock Hname. split.
  - apply stored_path_plain_name; assumption.
  - apply stored_filename_no_slash; [| exact Hname].
    apply clock_datetime_ranges. exact Hclock.
Qed.

Lemma stored_path_of_plain_name_witness :
  stored_path noon "notes.txt" = "uploads/" +:+ strftime noon +:+ "_" +:+ "notes.txt" /\
  str_mem "/" (stored_filename noon "notes.txt") = false.
Proof.
  exact (stored_path_of_plain_name noon "notes.txt" eq_refl eq_refl).
Defined.

Lemma String_tail_eq (c c' : ascii) (s s' : string) :
  String c s = String c' s' -> s = s'.
Proof. intros H. injection H as _ H. exact H. Qed.

(** X12. The stored name keeps the original name apart: it is sixteen
    characters longer, and two uploads whose original names differ never
    get the same stored name, whatever their times. *)
Theorem stored_filename_keeps_name (d1 d2 : datetime) (n1 n2 : string) :
  String.length (stored_filename d1 n1) = (16 + String.length n1)%nat /\
  (stored_filename d1 n1 = stored_filename d2 n2 -> n1 = n2).
Proof.
  split.
  - rewrite stored_filename_unfold. reflexivity.
  - rewrite !stored_filename_unfold. unfold strftime_then, pad4, pad2.
    cbn [String.append]. intros H.
    do 16 apply String_tail_eq in H. exact H.
Qed.

Lemma stored_filename_keeps_name_witness :
  String.length (stored_filename noon "a.txt") = 21%nat /\
  (stored_filename noon "a.txt" = stored_filename noon "b.txt" -> "a.txt" = "b.txt").
Proof.
  exact (stored_filename_keeps_name noon noon "a.txt" "b.txt").
Defined.

(** ** What the upload directory holds afterwards *)






Lemma uploads_prefix_inj (a b : string) :
  "uploads/" +:+ a = "uploads/" +:+ b -> a = b.
Proof. intros H. injection H as H. exact H. Qed.

Lemma upload_try_files env file now st r st' :
  upload_try env file now st = (Returned r, st') ->
  st' = (upload_file env file now st).2 /\
  files st' !! stored_path now (filename file) = Some (content file).
Proof.
  intros Htry. split.
  - rewrite (upload_file_after_success _ _ _ _ _ _ Htry). reflexivity.
  - destruct (upload_try_returned _ _ _ _ _ _ Htry)
      as (_ & _ & rag & _ & _ & Hfiles & _).
    rewrite Hfiles. apply lookup_insert_eq.
Qed.

(** X14. Two successful uploads of the same slash-free original name, the
    second after the first, with clock readings more than one second
    apart: both files are in the upload directory afterwards, each with
    the bytes of its own upload. *)
Theorem uploads_apart_are_both_kept
    (env : Env) (f1 f2 : UploadFile) (d1 d2 : datetime)
    (st st1 st2 : state) (r1 r2 : response) :
  clock_datetime d1 = true ->
  clock_datetime d2 = true ->
  filename f1 = filename f2 ->
  str_mem "/" (filename f1) = false ->
  1000000 < Z.abs (to_microseconds d1 - to_microseconds d2) ->
  upload_try env f1 d1 st = (Returned r1, st1) ->
  upload_try env f2 d2 st1 = (Returned r2, st2) ->
  stored_path d1 (filename f1) <> stored_path d2 (filename f2) /\
  files st2 !! stored_path d1 (filename f1) = Some (content f1) /\
  files st2 !! stored_path d2 (filename f2) = Some (content f2).
Proof.
  intros Hc1 Hc2 Hname Hplain Hfar Hup1 Hup2.
  assert (Hne : stored_path d1 (filename f1) <> stored_path d2 (filename f2)).
  { rewrite <- Hname.
    rewrite !stored_path_plain_name by assumption.
    intros Heq. apply uploads_prefix_inj in Heq.
    rewrite !stored_filename_unfold in Heq.
    apply clock_datetime_ranges in Hc1. apply clock_datetime_ranges in Hc2.
    apply strftime_then_inj in Heq as [Hsame _]; [| assumption..].
    apply same_second_microseconds in Hsame.
    destruct Hc1, Hc2. lia. }
  destruct (upload_try_files _ _ _ _ _ _ Hup1) as [_ Hfile1].
  destruct (upload_try_files _ _ _ _ _ _ Hup2) as [Hst2 Hfile2].
  split; [exact Hne |]. split; [| exact Hfile2].
  rewrite Hst2, (upload_file_touches env f2 d2 st1) by exact Hne.
  exact Hfile1.
Qed.

Definition notes_v2 : UploadFile :=
  {| filename := "notes.txt";
     content_type := Some "text/plain";
     content := [x62; x79; x65] |}.

Definition noon_later : datetime := mk_datetime 2024 3 9 12 0 5 0.

Lemma uploads_apart_are_both_kept_witness :
  let st2 := (upload_file env_ok notes_v2 noon_later
                (upload_file env_ok notes_txt noon st0).2).2 in
  files st2 !! "uploads/20240309_120000_notes.txt" = Some [x68; x69] /\
  files st2 !! "uploads/20240309_120005_notes.txt" = Some [x62; x79; x65].
Proof.
  pose proof (upload_try_returns env_ok notes_txt noon st0
                {[ "index_id" := VStr "idx-1" ]}
                (env_ok_upload_calls notes_txt noon) eq_refl eq_refl) as Hup1.
  pose proof (upload_try_returns env_ok notes_v2 noon_later
                (upload_file env_ok notes_txt noon st0).2
                {[ "index_id" := VStr "idx-1" ]}
                (env_ok_upload_calls notes_v2 noon_later) eq_refl eq_refl) as Hup2.
  rewrite (upload_file_after_success _ _ _ _ _ _ Hup1) in Hup2 |- *.
  rewrite (upload_file_after_success _ _ _ _ _ _ Hup2).
  destruct (uploads_apart_are_both_kept env_ok notes_txt notes_v2 noon noon_later
              _ _ _ _ _ eq_refl eq_refl eq_refl eq_refl eq_refl Hup1 Hup2)
    as (_ & H1 & H2).
  split; [exact H1 | exact H2].
Defined.

(** X15. Two successful uploads of the same original name whose clock
    readings fall in the same second are written to the same path: after
    the second, that file holds the bytes of the second upload, and those
    of the first are gone. *)
Theorem uploads_in_same_second_overwrite
    (env : Env) (f1 f2 : UploadFile) (d1 d2 : datetime)
    (st st1 st2 : state) (r1 r2 : response) :
  filename f1 = filename f2 ->
  same_second d1 d2 ->
  upload_try env f1 d1 st = (Returned r1, st1) ->
  upload_try env f2 d2 st1 = (Returned r2, st2) ->
  stored_path d1 (filename f1) = stored_path d2 (filename f2) /\
  files st1 !! stored_path d1 (filename f1) = Some (content f1) /\
  files st2 !! stored_path d1 (filename f1) = Some (content f2).
Proof.
  intros Hname (Hy & Hm & Hd & Hh & Hmi & Hs) Hup1 Hup2.
  assert (Hpath : stored_path d1 (filename f1) = stored_path d2 (filename f2)).
  { unfold stored_path, stored_filename, strftime, strftime_then.
    rewrite Hname, Hy, Hm, Hd, Hh, Hmi, Hs. reflexivity. }
  destruct (upload_try_files _ _ _ _ _ _ Hup1) as [_ Hfile1].
  destruct (upload_try_files _ _ _ _ _ _ Hup2) as [_ Hfile2].
  split; [exact Hpath |]. split; [exact Hfile1 |].
  rewrite Hpath. exact Hfile2.
Qed.

Definition noon_half : datetime := mk_datetime 2024 3 9 12 0 0 500000.

Lemma uploads_in_same_second_overwrite_witness :
  let st1 := (upload_file env_ok notes_txt noon st0).2 in
  let st2 := (upload_file env_ok notes_v2 noon_half st1).2 in
  files st1 !! "uploads/20240309_120000_notes.txt" = Some [x68; x69] /\
  files st2 !! "uploads/20240309_120000_notes.txt" = Some [x62; x79; x65].
Proof.
  cbv zeta.
  pose proof (upload_try_returns env_ok notes_txt noon st0
                {[ "index_id" := VStr "idx-1" ]}
                (env_ok_upload_calls notes_txt noon) eq_refl eq_refl) as Hup1.
  pose proof (upload_try_returns env_ok notes_v2 noon_half
                (upload_file env_ok notes_txt noon st0).2
                {[ "index_id" := VStr "idx-1" ]}
                (env_ok_upload_calls notes_v2 noon_half) eq_refl eq_refl) as Hup2.
  rewrite (upload_file_after_success _ _ _ _ _ _ Hup1) in Hup2 |- *.
  rewrite (upload_file_after_success _ _ _ _ _ _ Hup2).
  destruct (uploads_in_same_second_overwrite env_ok notes_txt notes_v2 noon noon_half
              _ _ _ _ _ eq_refl ltac:(repeat split) Hup1 Hup2)
    as (_ & H1 & H2).
  split; [exact H1 | exact H2].
Defined.

Lemma str_replace_removes (a b : ascii) (s : string) :
  Ascii.eqb b a = false -> str_mem a (str_replace a b s) = false.
Proof.
  intros Hab. induction s as [| c s IH]; simpl; [reflexivity |].
  destruct (Ascii.eqb c a) eqn:Hc; rewrite ?Hab, ?Hc; exact IH.
Qed.

Lemma str_replace_length (a b : ascii) (s : string) :
  String.length (str_replace a b s) = String.length s.
Proof. induction s as [| c s IH]; simpl; [reflexivity | rewrite IH; reflexivity]. Qed.

(** X16. The [path] the upload record carries never contains a backslash
    and has the length of the path written; when the indexing result has
    no [path] key of its own, this is the [path] of the response. *)
Theorem returned_path_has_no_backslash
    (env : Env) (file : UploadFile) (now : datetime) (st st' : state) (r : response) :
  upload_try env file now st = (Returned r, st') ->
  exists rag d p,
    process_file_result env (file_info_of file now) = Mapping rag /\
    r = RDict d /\
    file_info_of file now !! "path" = Some (VStr p) /\
    str_mem "\" p = false /\
    String.length p = String.length (stored_path now (filename file)) /\
    (rag !! "path" = None -> d !! "path" = Some (VStr p)).
Proof.
  intros Htry.
  destruct (upload_try_returned _ _ _ _ _ _ Htry) as (_ & _ & rag & Hrag & -> & _).
  exists rag, (rag ∪ file_info_of file now),
    (str_replace "\" "/" (stored_path now (filename file))).
  split; [exact Hrag |]. split; [reflexivity |].
  split; [apply file_info_path |].
  split; [apply str_replace_removes; reflexivity |].
  split; [apply str_replace_length |].
  intros Hk. rewrite merge_lookup, Hk. apply file_info_path.
Qed.

Lemma returned_path_has_no_backslash_witness :
  exists rag d p,
    process_file_result env_ok (file_info_of backslash_txt noon) = Mapping rag /\
    RDict (({[ "index_id" := VStr "idx-1" ]} : dict) ∪ file_info_of backslash_txt noon)
    = RDict d /\
    file_info_of backslash_txt noon !! "path" = Some (VStr p) /\
    str_mem "\" p = false /\
    String.length p = String.length (stored_path noon (filename backslash_txt)) /\
    (rag !! "path" = None -> d !! "path" = Some (VStr p)).
Proof.
  exact (returned_path_has_no_backslash env_ok backslash_txt noon st0 _ _
           (upload_try_returns env_ok backslash_txt noon st0
              {[ "index_id" := VStr "idx-1" ]}
              (env_ok_upload_calls backslash_txt noon) eq_refl eq_refl)).
Defined.
